(** * mcp-server-notion: the two tools of [server.py] and their renderers

    A shallow embedding of [src/server.py].  The values the upstream API
    hands back are arbitrary JSON, so the Python objects the code
    manipulates are modelled dynamically ([pyval]) and every operation
    that Python may refuse (calling [.get] on a non-dict, iterating over
    a number, joining a non-string) raises the corresponding exception in
    an error monad.  The HTTP client is a function from requests to
    what each call of the client comes to, together with a log of the
    calls made. *)

From Stdlib Require Import ZArith List String Ascii Bool Lia.
From Stdlib Require Import DecimalString SpecFloat.
From ExtLib Require Import Structures.Monad Structures.MonadExc.
From ExtLib Require Import Data.Monads.EitherMonad.
Import ListNotations MonadNotation.

Open Scope string_scope.
Open Scope monad_scope.

Set Implicit Arguments.
Set Warnings "-register-all".

(** ** Python values and exceptions *)

Module Py.

(** What [response.json()] can produce: None, bool, int, float, str,
    list and dict.  A dict is kept as its items in insertion order;
    [dict_get] reads the first binding of a key. *)
Inductive pyval : Type :=
| VNone
| VBool (b : bool)
| VInt (z : Z)
| VFloat (f : spec_float)
| VStr (s : string)
| VList (l : list pyval)
| VDict (d : list (string * pyval)).

Inductive pytype : Type :=
| TNoneType | TBool | TInt | TFloat | TStr | TList | TDict.

Definition type_of (v : pyval) : pytype :=
  match v with
  | VNone => TNoneType
  | VBool _ => TBool
  | VInt _ => TInt
  | VFloat _ => TFloat
  | VStr _ => TStr
  | VList _ => TList
  | VDict _ => TDict
  end.

(** The exceptions that can travel through the two tools.
    [ClientError] stands for what a call of the httpx client raises that
    is not an [httpx.RequestError]: the request could not be built
    ([httpx.InvalidURL] for a control character in the URL,
    [UnicodeEncodeError] for a header value that is not ASCII). *)
Inductive exn : Type :=
| HTTPStatusError (status_code : Z) (text : string)
| RequestError (msg : string)
| JSONDecodeError (msg : string)
| ValueError (msg : string)
| ClientError (class_name : string) (msg : string)
| AttributeError (ty : pytype) (attr : string)
| TypeError_not_iterable (ty : pytype)
| TypeError_not_container (ty : pytype)
| TypeError_join_item (index : nat) (ty : pytype).

Definition exc : Type -> Type := sum exn.

(** [bool(v)] *)
Definition truthy (v : pyval) : bool :=
  match v with
  | VNone => false
  | VBool b => b
  | VInt z => negb (z =? 0)%Z
  | VFloat (S754_zero _) => false
  | VFloat _ => true
  | VStr s => negb (s =? "")
  | VList l => match l with [] => false | _ => true end
  | VDict d => match d with [] => false | _ => true end
  end.

Fixpoint dict_get (d : list (string * pyval)) (k : string) : option pyval :=
  match d with
  | [] => None
  | (k', v) :: rest => if k =? k' then Some v else dict_get rest k
  end.

Definition dict_get_or (d : list (string * pyval)) (k : string)
    (default : pyval) : pyval :=
  match dict_get d k with
  | Some x => x
  | None => default
  end.

(** [v.get(k, default)] *)
Definition get (v : pyval) (k : string) (default : pyval) : exc pyval :=
  match v with
  | VDict d => ret (dict_get_or d k default)
  | _ => raise (AttributeError (type_of v) "get")
  end.

(** [v == s] for a string literal [s] *)
Definition eq_str (v : pyval) (s : string) : bool :=
  match v with
  | VStr s' => s' =? s
  | _ => false
  end.

(** [needle in hay] for strings *)
Fixpoint substring_of (needle hay : string) : bool :=
  prefix needle hay
  || match hay with
     | EmptyString => false
     | String _ rest => substring_of needle rest
     end.

(** [s in v] for a string literal [s] *)
Definition contains (s : string) (v : pyval) : exc bool :=
  match v with
  | VDict d => ret (match dict_get d s with Some _ => true | None => false end)
  | VList l => ret (existsb (fun x => eq_str x s) l)
  | VStr hay => ret (substring_of s hay)
  | _ => raise (TypeError_not_container (type_of v))
  end.

(** The items a [for] loop or a comprehension sees: the items of a
    list, the keys of a dict, the characters of a str (here its bytes;
    the tools call [.get] on each item first, which a str refuses
    whatever it holds). *)
Definition iter (v : pyval) : exc (list pyval) :=
  match v with
  | VList l => ret l
  | VDict d => ret (map (fun kv => VStr (fst kv)) d)
  | VStr s => ret (map (fun c => VStr (String c "")) (list_ascii_of_string s))
  | _ => raise (TypeError_not_iterable (type_of v))
  end.

(** The strings of a list to be joined; the first item that is not a
    str raises. *)
Fixpoint join_items (index : nat) (items : list pyval) : exc (list string) :=
  match items with
  | [] => ret []
  | VStr s :: rest => ss <- join_items (S index) rest ;; ret (s :: ss)
  | v :: _ => raise (TypeError_join_item index (type_of v))
  end.

(** [sep.join(items)] *)
Definition join (sep : string) (items : list pyval) : exc string :=
  ss <- join_items 0 items ;; ret (String.concat sep ss).

(** [[f(x) for x in xs]] with a body that may raise. *)
Fixpoint comprehension {A B} (f : A -> exc B) (xs : list A) : exc (list B) :=
  match xs with
  | [] => ret []
  | x :: rest => y <- f x ;; ys <- comprehension f rest ;; ret (y :: ys)
  end.

(** [str(n)] for an int *)
Definition str_int (z : Z) : string := NilZero.string_of_int (Z.to_int z).

(** [l[:n]] *)
Definition slice_to {A} (l : list A) (n : Z) : list A :=
  if (0 <=? n)%Z then firstn (Z.to_nat n) l
  else firstn (Z.to_nat (Z.of_nat (List.length l) + n)) l.

(** What the code takes from the interpreter and from httpx without
    defining it. *)
Class Platform : Type := {
  (** [Response.raise_for_status] raises for this status code *)
  raises_for_status : Z -> bool;
  (** [str.upper] *)
  upper : string -> string;
  (** [format(v)] of a float, a list or a dict *)
  format_compound : pyval -> string;
  (** [str(e)] of an AttributeError or a TypeError *)
  builtin_message : exn -> string
}.

Section WithPlatform.
Context {P : Platform}.

(** [f"{v}"] *)
Definition format (v : pyval) : string :=
  match v with
  | VStr s => s
  | VNone => "None"
  | VBool true => "True"
  | VBool false => "False"
  | VInt z => str_int z
  | _ => format_compound v
  end.

(** [str(e)] *)
Definition str_exn (e : exn) : string :=
  match e with
  | RequestError msg | JSONDecodeError msg | ValueError msg
  | ClientError _ msg => msg
  | _ => builtin_message e
  end.
End WithPlatform.

End Py.

Import Py.

(** ** The HTTP client *)

Module Httpx.

Inductive method : Type := GET | POST.

Record Request : Type := {
  req_method : method;
  req_url : string;
  req_headers : list (string * string);
  req_json : option pyval
}.

(** A response as the code reads it: [status_code], [text], and what
    [json()] gives, a decoded value or the message of the decoding
    error. *)
Record Response : Type := {
  status_code : Z;
  text : string;
  json : string + pyval
}.

(** What a call of the client with a request comes to: the client
    refuses to build the request and raises before anything is sent
    (class and [str(e)] of the exception, which is no [RequestError]),
    the request fails in transport (the [str(e)] of the
    [RequestError]), or a response arrives. *)
Inductive Reply : Type :=
| Unsendable (class_name : string) (msg : string)
| Unreachable (msg : string)
| Replied (r : Response).

Definition Upstream : Type := Request -> Reply.

(** Code that calls the client: it reads what the calls come to,
    extends the log of the calls it makes ([client.post], [client.get];
    a call is logged with its request whether or not the client gets to
    send it) and returns or raises. *)
Definition Client (A : Type) : Type :=
  Upstream -> list Request -> list Request * exc A.

#[global] Instance Monad_Client : Monad Client := {
  ret := fun _ x _ log => (log, inr x);
  bind := fun _ _ c f up log =>
    match c up log with
    | (log', inl e) => (log', inl e)
    | (log', inr x) => f x up log'
    end
}.

#[global] Instance Exception_Client : MonadExc exn Client := {
  raise := fun _ e _ log => (log, inl e);
  catch := fun _ c h up log =>
    match c up log with
    | (log', inl e) => h e up log'
    | r => r
    end
}.

Definition lift {A} (c : exc A) : Client A := fun _ log => (log, c).

Definition send (req : Request) : Client Response :=
  fun up log =>
    ((log ++ [req])%list,
     match up req with
     | Unsendable class_name msg => inl (ClientError class_name msg)
     | Unreachable msg => inl (RequestError msg)
     | Replied r => inr r
     end).

(** [client.post(url, headers=..., json=...)] *)
Definition client_post (url : string) (headers : list (string * string))
    (payload : pyval) : Client Response :=
  send {| req_method := POST; req_url := url; req_headers := headers;
          req_json := Some payload |}.

(** [client.get(url, headers=...)] *)
Definition client_get (url : string) (headers : list (string * string))
    : Client Response :=
  send {| req_method := GET; req_url := url; req_headers := headers;
          req_json := None |}.

(** [response.raise_for_status()] *)
Definition raise_for_status {P : Platform} (r : Response) : Client unit :=
  if raises_for_status (status_code r)
  then raise (HTTPStatusError (status_code r) (text r))
  else ret tt.

(** [response.json()] *)
Definition response_json (r : Response) : Client pyval :=
  match json r with
  | inl msg => raise (JSONDecodeError msg)
  | inr v => ret v
  end.

(** A call of a tool: the log starts empty. *)
Definition run {A} (c : Client A) (up : Upstream) : list Request * exc A :=
  c up [].

(** Code that makes no call of the client leaves the log as it is. *)
Definition silent (A : Type) (c : Client A) : Prop :=
  forall up log, fst (c up log) = log.

End Httpx.

Import Httpx.

(** ** server.py: the shaped data *)

(** [{"id": block_id, "type": block_type, "text": text}] *)
Record Block : Type := {
  block_id : pyval;
  block_type : string;
  block_text : string
}.

(** The dict appended to [formatted_results] in [notion_search]:
    [id], [title], [created_time], [last_edited_time], [tags], [url]. *)
Record ArticleSummary : Type := {
  id : pyval;
  title : string;
  created_time : pyval;
  last_edited_time : pyval;
  tags : list pyval;
  url : pyval
}.

(** The dict [result] of [notion_get_article]: the same six keys and
    [content]. *)
Record ArticleDetail : Type := {
  summary : ArticleSummary;
  content : list Block
}.

(** What a tool hands back to its caller. *)
Inductive ToolResult : Type :=
| Summaries (formatted_results : list ArticleSummary)
| Detail (result : ArticleDetail)
| Rendered (document : string)
| Error (message : string).

(** The Python objects these stand for. *)
Definition block_dict (b : Block) : pyval :=
  VDict [("id", block_id b); ("type", VStr (block_type b));
         ("text", VStr (block_text b))].

Definition summary_items (s : ArticleSummary) : list (string * pyval) :=
  [("id", id s); ("title", VStr (title s));
   ("created_time", created_time s);
   ("last_edited_time", last_edited_time s);
   ("tags", VList (tags s)); ("url", url s)].

Definition detail_dict (a : ArticleDetail) : pyval :=
  VDict (summary_items (summary a)
         ++ [("content", VList (map block_dict (content a)))])%list.

Definition returned_object (r : ToolResult) : pyval :=
  match r with
  | Summaries l => VList (map (fun s => VDict (summary_items s)) l)
  | Detail a => detail_dict a
  | Rendered s => VStr s
  | Error msg => VDict [("error", VStr msg)]
  end.

(** The line feed of the string literals. *)
Definition LF : string := String (ascii_of_nat 10) "".

(** A [for] loop whose body updates the loop's variables and may raise. *)
Fixpoint for_loop {S A} (body : S -> A -> exc S) (xs : list A) (s : S)
    : exc S :=
  match xs with
  | [] => ret s
  | x :: rest => s' <- body s x ;; for_loop body rest s'
  end.

(** ** server.py: module level *)

Definition NOTION_API_URL : string := "https://api.notion.com/v1".

(** [bool(NOTION_API_TOKEN)], the token being [os.environ.get(...)]. *)
Definition token_configured (NOTION_API_TOKEN : option string) : bool :=
  match NOTION_API_TOKEN with
  | Some t => negb (t =? "")
  | None => false
  end.

Definition headers (NOTION_API_TOKEN : option string)
    : list (string * string) :=
  [("Authorization",
    "Bearer " ++ match NOTION_API_TOKEN with Some t => t | None => "None" end);
   ("Content-Type", "application/json");
   ("Notion-Version", "2022-06-28")].

(** Importing the module raises when the token is missing or empty. *)
Definition import_module (NOTION_API_TOKEN : option string) : exc unit :=
  if negb (token_configured NOTION_API_TOKEN)
  then raise (ValueError "Notion API credentials not configured")
  else ret tt.

(** ** server.py: title and tags

    The two extractions are written out twice in the source, in
    [notion_search] (lines 76-91) and in [notion_get_article]
    (lines 153-168), with the same text. *)

Definition extract_title (properties : pyval) : exc string :=
  fallback <- Py.get properties "Name" (VDict []) ;;
  title_property <- Py.get properties "title" fallback ;;
  present <- (if truthy title_property
              then contains "title" title_property
              else ret false) ;;
  if (present : bool) then
    runs <- Py.get title_property "title" (VList []) ;;
    texts <- iter runs ;;
    title_parts <- comprehension
                     (fun text => Py.get text "plain_text" (VStr "")) texts ;;
    join "" title_parts
  else ret "".

Definition extract_tags (properties : pyval) : exc (list pyval) :=
  tags_property <- Py.get properties "Tags" (VDict []) ;;
  present <- (if truthy tags_property
              then contains "multi_select" tags_property
              else ret false) ;;
  if (present : bool) then
    options <- Py.get tags_property "multi_select" (VList []) ;;
    tag_list <- iter options ;;
    comprehension (fun tag => Py.get tag "name" VNone) tag_list
  else ret [].

(** ** server.py: [_process_blocks] *)

Definition supported_block_types : list string :=
  ["paragraph"; "heading_1"; "heading_2"; "heading_3";
   "bulleted_list_item"; "numbered_list_item"; "quote"; "code"].

(** The body of the loop over [blocks]. *)
Definition process_block (processed_blocks : list Block) (block : pyval)
    : exc (list Block) :=
  block_type <- Py.get block "type" VNone ;;
  block_id <- Py.get block "id" VNone ;;
  match block_type with
  | VStr ty =>
      if existsb (String.eqb ty) supported_block_types then
        payload <- Py.get block ty (VDict []) ;;
        content <- Py.get payload "rich_text" (VList []) ;;
        items <- iter content ;;
        parts <- comprehension
                   (fun item => Py.get item "plain_text" (VStr "")) items ;;
        text <- join "" parts ;;
        ret (processed_blocks
             ++ [{| block_id := block_id; block_type := ty;
                    block_text := text |}])%list
      else ret processed_blocks
  | _ => ret processed_blocks
  end.

(** The parameter [format] is not read. *)
Definition _process_blocks (blocks : pyval) (format : string)
    : exc (list Block) :=
  items <- iter blocks ;;
  for_loop process_block items [].

(** A shaped block of the given type. *)
Definition block_of (type : string) (block_id : pyval) (text : string)
    : Block :=
  {| block_id := block_id; block_type := type; block_text := text |}.

(** ** server.py: the renderers *)

Section Renderers.
Context {P : Platform}.

(** The body of the loop of [_convert_to_markdown]. *)
Definition markdown_block (markdown : string) (block : Block) : string :=
  let block_type := block_type block in
  let text := block_text block in
  if block_type =? "paragraph" then markdown ++ text ++ LF ++ LF
  else if block_type =? "heading_1" then markdown ++ "# " ++ text ++ LF ++ LF
  else if block_type =? "heading_2" then markdown ++ "## " ++ text ++ LF ++ LF
  else if block_type =? "heading_3" then markdown ++ "### " ++ text ++ LF ++ LF
  else if block_type =? "bulleted_list_item" then markdown ++ "- " ++ text ++ LF
  else if block_type =? "numbered_list_item" then markdown ++ "1. " ++ text ++ LF
  else if block_type =? "quote" then markdown ++ "> " ++ text ++ LF ++ LF
  else if block_type =? "code"
       then markdown ++ "```" ++ LF ++ text ++ LF ++ "```" ++ LF ++ LF
  else markdown.

Definition _convert_to_markdown (result : ArticleDetail) : string :=
  let markdown := "# " ++ title (summary result) ++ LF ++ LF in
  let markdown :=
    match tags (summary result) with
    | [] => markdown
    | _ =>
        markdown
        ++ ("Tags: "
            ++ String.concat ", "
                 (map (fun tag => "`" ++ Py.format tag ++ "`")
                      (tags (summary result)))
            ++ LF ++ LF)
    end in
  fold_left markdown_block (content result) markdown.

(** The body of the loop of [_convert_to_text]. *)
Definition text_block (text : string) (block : Block) : string :=
  let block_type := block_type block in
  let content := block_text block in
  if existsb (String.eqb block_type) ["paragraph"; "quote"]
  then text ++ content ++ LF ++ LF
  else if existsb (String.eqb block_type) ["heading_1"; "heading_2"; "heading_3"]
  then text ++ upper content ++ LF ++ LF
  else if block_type =? "bulleted_list_item" then text ++ "* " ++ content ++ LF
  else if block_type =? "numbered_list_item" then text ++ "- " ++ content ++ LF
  else if block_type =? "code" then text ++ content ++ LF ++ LF
  else text.

Definition _convert_to_text (result : ArticleDetail) : exc string :=
  let text := title (summary result) ++ LF ++ LF in
  text <- match tags (summary result) with
          | [] => ret text
          | _ =>
              joined <- join ", " (tags (summary result)) ;;
              ret (text ++ ("Tags: " ++ joined ++ LF ++ LF))
          end ;;
  ret (fold_left text_block (content result) text).

End Renderers.

(** ** server.py: the two tools *)

Section Tools.
Context {P : Platform}.
Variable NOTION_API_TOKEN : option string.

(** The three [except] clauses that close both tools, in their order. *)
Definition except_clauses (e : exn) : ToolResult :=
  match e with
  | HTTPStatusError status_code text =>
      Error ("HTTP error: " ++ str_int status_code ++ " - " ++ text)
  | RequestError _ => Error ("Request error: " ++ str_exn e)
  | _ => Error ("Unexpected error: " ++ str_exn e)
  end.

(** [payload] as [notion_search] builds it before the [try]. *)
Definition search_payload (query : string) (limit : Z) (sort_order : string)
    : pyval :=
  let direction := if sort_order =? "asc" then "ascending" else "descending" in
  let sort := VDict [("timestamp", VStr "last_edited_time");
                     ("direction", VStr direction)] in
  let filter_obj := VDict [("property", VStr "object");
                           ("value", VStr "page")] in
  let page_size := Z.min limit 100 in
  VDict [("query", VStr query); ("page_size", VInt page_size);
         ("sort", sort); ("filter", filter_obj)].

(** The body of the loop over [pages]. *)
Definition format_page (formatted_results : list ArticleSummary)
    (page : pyval) : exc (list ArticleSummary) :=
  object <- Py.get page "object" VNone ;;
  if negb (eq_str object "page") then ret formatted_results
  else
    page_id <- Py.get page "id" VNone ;;
    properties <- Py.get page "properties" (VDict []) ;;
    title <- extract_title properties ;;
    page_tags <- extract_tags properties ;;
    created_time <- Py.get page "created_time" VNone ;;
    last_edited_time <- Py.get page "last_edited_time" VNone ;;
    url <- Py.get page "url" VNone ;;
    ret (formatted_results
         ++ [{| id := page_id; title := title;
                created_time := created_time;
                last_edited_time := last_edited_time;
                tags := page_tags; url := url |}])%list.

(** The statements under [try] in [notion_search]. *)
Definition search_try (payload : pyval) (limit : Z) : Client ToolResult :=
  response <- client_post (NOTION_API_URL ++ "/search")
                (headers NOTION_API_TOKEN) payload ;;
  raise_for_status response ;;
  result <- response_json response ;;
  pages <- lift (Py.get result "results" (VList [])) ;;
  page_list <- lift (iter pages) ;;
  formatted_results <- lift (for_loop format_page page_list []) ;;
  let formatted_results :=
    if (limit <? Z.of_nat (List.length formatted_results))%Z
    then slice_to formatted_results limit
    else formatted_results in
  ret (Summaries formatted_results).

Definition notion_search (query : string) (limit : Z) (sort_order : string)
    : Client ToolResult :=
  let payload := search_payload query limit sort_order in
  catch (search_try payload limit) (fun e => ret (except_clauses e)).

(** The statements under [try] in [notion_get_article]. *)
Definition get_article_try (article_id : string) (format : string)
    : Client ToolResult :=
  page_response <- client_get (NOTION_API_URL ++ "/pages/" ++ article_id)
                     (headers NOTION_API_TOKEN) ;;
  raise_for_status page_response ;;
  page_data <- response_json page_response ;;
  blocks_response <- client_get
                       (NOTION_API_URL ++ "/blocks/" ++ article_id
                        ++ "/children?page_size=100")
                       (headers NOTION_API_TOKEN) ;;
  raise_for_status blocks_response ;;
  blocks_data <- response_json blocks_response ;;
  properties <- lift (Py.get page_data "properties" (VDict [])) ;;
  title <- lift (extract_title properties) ;;
  tags <- lift (extract_tags properties) ;;
  blocks <- lift (Py.get blocks_data "results" (VList [])) ;;
  content <- lift (_process_blocks blocks format) ;;
  created_time <- lift (Py.get page_data "created_time" VNone) ;;
  last_edited_time <- lift (Py.get page_data "last_edited_time" VNone) ;;
  url <- lift (Py.get page_data "url" VNone) ;;
  let result :=
    {| summary := {| id := VStr article_id; title := title;
                     created_time := created_time;
                     last_edited_time := last_edited_time;
                     tags := tags; url := url |};
       content := content |} in
  if format =? "markdown" then ret (Rendered (_convert_to_markdown result))
  else if format =? "text"
  then document <- lift (_convert_to_text result) ;;
       ret (Rendered document)
  else ret (Detail result).

Definition notion_get_article (article_id : string) (format : string)
    : Client ToolResult :=
  if negb (token_configured NOTION_API_TOKEN)
  then ret (Error "Notion API credentials not configured")
  else catch (get_article_try article_id format)
         (fun e => ret (except_clauses e)).

(** The request [notion_search] hands to the client, and the two
    requests [notion_get_article] hands to it. *)
Definition search_request (query : string) (limit : Z) (sort_order : string)
    : Request :=
  {| req_method := POST;
     req_url := NOTION_API_URL ++ "/search";
     req_headers := headers NOTION_API_TOKEN;
     req_json := Some (search_payload query limit sort_order) |}.

Definition page_request (article_id : string) : Request :=
  {| req_method := GET;
     req_url := NOTION_API_URL ++ "/pages/" ++ article_id;
     req_headers := headers NOTION_API_TOKEN;
     req_json := None |}.

Definition blocks_request (article_id : string) : Request :=
  {| req_method := GET;
     req_url := NOTION_API_URL ++ "/blocks/" ++ article_id
                ++ "/children?page_size=100";
     req_headers := headers NOTION_API_TOKEN;
     req_json := None |}.

End Tools.

(** ** A concrete platform, to run the tools *)

(** httpx raises for every status that is not 2xx. *)
Definition httpx_raises (status_code : Z) : bool :=
  negb ((200 <=? status_code)%Z && (status_code <=? 299)%Z).

(** [str.upper] on ASCII letters. *)
Definition ascii_upper (c : ascii) : ascii :=
  let n := nat_of_ascii c in
  if (97 <=? n)%nat && (n <=? 122)%nat then ascii_of_nat (n - 32) else c.

Fixpoint upper_ascii (s : string) : string :=
  match s with
  | EmptyString => EmptyString
  | String c rest => String (ascii_upper c) (upper_ascii rest)
  end.

Definition type_name (ty : pytype) : string :=
  match ty with
  | TNoneType => "NoneType"
  | TBool => "bool"
  | TInt => "int"
  | TFloat => "float"
  | TStr => "str"
  | TList => "list"
  | TDict => "dict"
  end.

Definition cpython_message (e : exn) : string :=
  match e with
  | AttributeError ty attr =>
      "'" ++ type_name ty ++ "' object has no attribute '" ++ attr ++ "'"
  | TypeError_not_iterable ty =>
      "'" ++ type_name ty ++ "' object is not iterable"
  | TypeError_not_container ty =>
      "argument of type '" ++ type_name ty ++ "' is not iterable"
  | TypeError_join_item i ty =>
      "sequence item " ++ str_int (Z.of_nat i)
      ++ ": expected str instance, " ++ type_name ty ++ " found"
  | HTTPStatusError _ text | RequestError text | JSONDecodeError text
  | ValueError text | ClientError _ text => text
  end.

(** Floats, lists and dicts print as a placeholder here. *)
Definition cpython : Platform := {|
  raises_for_status := httpx_raises;
  upper := upper_ascii;
  format_compound := fun _ => "<object>";
  builtin_message := cpython_message
|}.

(** ** The upstream's objects

    What the claims say about "a block" or "a title run" is about JSON
    objects of the upstream's schema; these predicates say which values
    those are. *)

Definition is_dict (v : pyval) : bool :=
  match v with
  | VDict _ => true
  | _ => false
  end.

(** A rich-text or title run whose [plain_text], when present, is a
    string. *)
Definition text_run (run : pyval) : bool :=
  match run with
  | VDict fields =>
      match dict_get_or fields "plain_text" (VStr "") with
      | VStr _ => true
      | _ => false
      end
  | _ => false
  end.

(** The text of a run. *)
Definition run_text (run : pyval) : string :=
  match run with
  | VDict fields =>
      match dict_get_or fields "plain_text" (VStr "") with
      | VStr s => s
      | _ => ""
      end
  | _ => ""
  end.

(** The declared type of a block is one of the eight kinds. *)
Definition supported (block : pyval) : bool :=
  match block with
  | VDict fields =>
      match dict_get fields "type" with
      | Some (VStr ty) => existsb (String.eqb ty) supported_block_types
      | _ => false
      end
  | _ => false
  end.

(** The runs under [block[type]["rich_text"]], both keys optional. *)
Definition rich_text_of (block : pyval) : option (list pyval) :=
  match block with
  | VDict fields =>
      match dict_get fields "type" with
      | Some (VStr ty) =>
          match dict_get_or fields ty (VDict []) with
          | VDict payload =>
              match dict_get_or payload "rich_text" (VList []) with
              | VList runs => Some runs
              | _ => None
              end
          | _ => None
          end
      | _ => None
      end
  | _ => None
  end.

(** A block object: a dict; when its type is supported, its rich text
    is a list of runs. *)
Definition api_block (block : pyval) : bool :=
  is_dict block
  && (negb (supported block)
      || match rich_text_of block with
         | Some runs => forallb text_run runs
         | None => false
         end).

(** The shaped block the specification describes for a raw block of a
    supported type: its id, its type, and the texts of its runs
    concatenated. *)
Definition shaped_block (block : pyval) : Block :=
  match block with
  | VDict fields =>
      {| block_id := dict_get_or fields "id" VNone;
         block_type := match dict_get fields "type" with
                       | Some (VStr ty) => ty
                       | _ => ""
                       end;
         block_text := match rich_text_of block with
                       | Some runs => String.concat "" (map run_text runs)
                       | None => ""
                       end |}
  | _ => {| block_id := VNone; block_type := ""; block_text := "" |}
  end.

(** ** Fixtures

    A small upstream to run the tools against. *)

Definition plain (s : string) : pyval := VDict [("plain_text", VStr s)].

Definition fixture_properties : list (string * pyval) :=
  [("Name", VDict [("id", VStr "title"); ("type", VStr "title");
                   ("title", VList [plain "Road"; plain "map"])]);
   ("Tags", VDict [("type", VStr "multi_select");
                   ("multi_select",
                    VList [VDict [("name", VStr "plan")];
                           VDict [("color", VStr "red")]])])].

Definition fixture_page (page_id : string) : pyval :=
  VDict [("object", VStr "page"); ("id", VStr page_id);
         ("created_time", VStr "2024-01-01T00:00:00.000Z");
         ("last_edited_time", VStr "2024-02-01T00:00:00.000Z");
         ("url", VStr ("https://www.notion.so/" ++ page_id));
         ("properties", VDict fixture_properties)].

Definition fixture_block (block_id type text : string) : pyval :=
  VDict [("object", VStr "block"); ("id", VStr block_id);
         ("type", VStr type);
         (type, VDict [("rich_text", VList [plain text])])].

(** Five blocks, two of them of unsupported types. *)
Definition five_blocks : list pyval :=
  [fixture_block "b1" "paragraph" "Shopping";
   VDict [("object", VStr "block"); ("id", VStr "b2");
          ("type", VStr "divider"); ("divider", VDict [])];
   fixture_block "b3" "numbered_list_item" "Buy milk";
   VDict [("object", VStr "block"); ("id", VStr "b4");
          ("type", VStr "image"); ("image", VNone)];
   fixture_block "b5" "code" "x = 1"].

Definition ok (body : pyval) : Reply :=
  Replied {| status_code := 200; text := "{}"; json := inr body |}.

(** The search answers with five pages. *)
Definition search_upstream : Upstream :=
  fun _ =>
    ok (VDict [("object", VStr "list");
               ("results",
                VList (map fixture_page ["p1"; "p2"; "p3"; "p4"; "p5"]))]).

(** The page and its blocks are both there. *)
Definition article_upstream : Upstream :=
  fun req =>
    if prefix (NOTION_API_URL ++ "/pages/") (req_url req)
    then ok (fixture_page "abc")
    else ok (VDict [("object", VStr "list"); ("results", VList five_blocks)]).

(** The page is there and its blocks are not. *)
Definition blocks_missing_upstream : Upstream :=
  fun req =>
    if prefix (NOTION_API_URL ++ "/pages/") (req_url req)
    then ok (fixture_page "abc")
    else Replied {| status_code := 404; text := "Not Found";
                    json := inl "Expecting value" |}.

(** ** Views of the upstream's objects used by the further properties *)

(** [v.get(k, default)] where [v] is known to be a dict. *)
Definition field (v : pyval) (k : string) (default : pyval) : pyval :=
  match v with
  | VDict fields => dict_get_or fields k default
  | _ => default
  end.

(** A result of the search whose [object] is "page". *)
Definition is_page (page : pyval) : bool :=
  eq_str (field page "object" VNone) "page".

Definition is_str (v : pyval) : bool :=
  match v with
  | VStr _ => true
  | _ => false
  end.

(** The declared type of a raw block, when it is a string. *)
Definition declared_type (block : pyval) : string :=
  match field block "type" VNone with
  | VStr ty => ty
  | _ => ""
  end.

(** What the renderers read of a shaped block. *)
Definition rendered_part (b : Block) : string * string :=
  (block_type b, block_text b).

(** The fields of a search result that are copied from the page as they
    are. *)
Definition copied_fields (s : ArticleSummary)
    : pyval * pyval * pyval * pyval :=
  (id s, created_time s, last_edited_time s, url s).

Definition page_fields_copied (page : pyval)
    : pyval * pyval * pyval * pyval :=
  (field page "id" VNone, field page "created_time" VNone,
   field page "last_edited_time" VNone, field page "url" VNone).




(** A search result entry summarises a page: four fields copied, the
    title and the tags extracted from the page's properties. *)
Definition summarises (page : pyval) (s : ArticleSummary) : Prop :=
  copied_fields s = page_fields_copied page
  /\ extract_title (field page "properties" (VDict [])) = inr (title s)
  /\ extract_tags (field page "properties" (VDict [])) = inr (tags s).

(** The search answers with a list that holds a null among the pages. *)
Definition bad_result_upstream : Upstream :=
  fun _ =>
    ok (VDict [("object", VStr "list");
               ("results",
                VList [fixture_page "p1"; VNone; fixture_page "p3"])]).

(** The answers have no "results". *)
Definition no_results_upstream : Upstream :=
  fun req =>
    if prefix (NOTION_API_URL ++ "/pages/") (req_url req)
    then ok (fixture_page "abc")
    else ok (VDict [("object", VStr "list")]).

(** The blocks hold a string among the block objects. *)
Definition bad_block_upstream : Upstream :=
  fun req =>
    if prefix (NOTION_API_URL ++ "/pages/") (req_url req)
    then ok (fixture_page "abc")
    else ok (VDict [("object", VStr "list");
                    ("results",
                     VList [fixture_block "b1" "paragraph" "Shopping";
                            VStr "b2"])]).

(** A "title" property that is empty beside a "Name" that is not. *)
Definition shadowed_properties : list (string * pyval) :=
  ("title", VDict []) :: fixture_properties.

Definition fixture_summary (tags : list pyval) : ArticleSummary :=
  {| id := VStr "abc"; title := "Roadmap"; created_time := VNone;
     last_edited_time := VNone; tags := tags; url := VNone |}.

(** ** Views of the tools used by the properties *)

(** An exception that neither of the first two [except] clauses takes,
    so that the last one, [except Exception], answers. *)
Definition unexpected (e : exn) : bool :=
  match e with
  | HTTPStatusError _ _ | RequestError _ => false
  | _ => true
  end.

(** Code that raises nothing but such exceptions. *)
Definition raises_unexpected (A : Type) (c : exc A) : Prop :=
  forall e, c = inl e -> unexpected e = true.

(** What [notion_search] does with the decoded response, lines 63-102:
    the pages are read and shaped. *)
Definition search_shaping (result : pyval) : exc (list ArticleSummary) :=
  pages <- Py.get result "results" (VList []) ;;
  page_list <- iter pages ;;
  for_loop format_page page_list [].

(** The trim of lines 104-106. *)
Definition trimmed (limit : Z) (formatted_results : list ArticleSummary)
    : list ArticleSummary :=
  if (limit <? Z.of_nat (List.length formatted_results))%Z
  then slice_to formatted_results limit
  else formatted_results.

(** What [notion_get_article] does with the two decoded responses,
    lines 149-189: the article is assembled and, for "markdown" and
    "text", rendered. *)
Definition article_shaping {P : Platform} (article_id format : string)
    (page_data blocks_data : pyval) : exc ToolResult :=
  properties <- Py.get page_data "properties" (VDict []) ;;
  title <- extract_title properties ;;
  tags <- extract_tags properties ;;
  blocks <- Py.get blocks_data "results" (VList []) ;;
  content <- _process_blocks blocks format ;;
  created_time <- Py.get page_data "created_time" VNone ;;
  last_edited_time <- Py.get page_data "last_edited_time" VNone ;;
  url <- Py.get page_data "url" VNone ;;
  let result :=
    {| summary := {| id := VStr article_id; title := title;
                     created_time := created_time;
                     last_edited_time := last_edited_time;
                     tags := tags; url := url |};
       content := content |} in
  if format =? "markdown" then ret (Rendered (_convert_to_markdown result))
  else if format =? "text"
  then document <- _convert_to_text result ;; ret (Rendered document)
  else ret (Detail result).

(** A summary with other tags. *)
Definition with_tags (s : ArticleSummary) (tags : list pyval)
    : ArticleSummary :=
  {| id := id s; title := title s; created_time := created_time s;
     last_edited_time := last_edited_time s; tags := tags; url := url s |}.


(** The client cannot encode the Authorization header. *)
Definition unencodable_header_upstream : Upstream :=
  fun _ =>
    Unsendable "UnicodeEncodeError"
      "'ascii' codec can't encode character in position 7".

(** * Properties *)

(** ** Strings and loops *)

Lemma append_assoc (a b c : string) : (a ++ b) ++ c = a ++ (b ++ c).
Proof.
  induction a as [|ch a IH]; simpl; [reflexivity|].
  now rewrite IH.
Qed.

Lemma append_empty_r (a : string) : a ++ "" = a.
Proof.
  induction a as [|ch a IH]; simpl; [reflexivity|].
  now rewrite IH.
Qed.

(** A loop that only appends to its accumulator can be run from the
    empty string and its output appended afterwards. *)
Lemma fold_left_appends (A : Type) (step : string -> A -> string) :
  (forall acc x, step acc x = acc ++ step "" x) ->
  forall xs acc, fold_left step xs acc = acc ++ fold_left step xs "".
Proof.
  intros Hstep xs.
  induction xs as [|x xs IH]; intros acc; simpl.
  - now rewrite append_empty_r.
  - rewrite IH, (IH (step "" x)), Hstep.
    apply append_assoc.
Qed.

Ltac split_ifs :=
  repeat match goal with
         | |- context [if ?c then _ else _] => destruct c
         end.

Ltac exc_step := cbn [bind ret Monad_either raise Exception_either].

Lemma join_items_strs index parts :
  join_items index (map VStr parts) = inr parts.
Proof.
  revert index.
  induction parts as [|part parts IH]; intros index; simpl; [reflexivity|].
  now rewrite IH.
Qed.

Section RendererFacts.
Context {P : Platform}.

Lemma markdown_block_appends acc b :
  markdown_block acc b = acc ++ markdown_block "" b.
Proof.
  unfold markdown_block.
  split_ifs; simpl; try reflexivity.
  now rewrite append_empty_r.
Qed.

Lemma text_block_appends acc b :
  text_block acc b = acc ++ text_block "" b.
Proof.
  unfold text_block.
  split_ifs; simpl; try reflexivity.
  now rewrite append_empty_r.
Qed.

Lemma markdown_content_app s pre post :
  _convert_to_markdown {| summary := s; content := pre ++ post |}
  = _convert_to_markdown {| summary := s; content := pre |}
    ++ fold_left markdown_block post "".
Proof.
  unfold _convert_to_markdown; simpl.
  rewrite fold_left_app.
  apply fold_left_appends, markdown_block_appends.
Qed.

Lemma text_content_app s pre post :
  _convert_to_text {| summary := s; content := pre ++ post |}
  = (document <- _convert_to_text {| summary := s; content := pre |} ;;
     ret (document ++ fold_left text_block post "")).
Proof.
  unfold _convert_to_text; simpl.
  destruct (tags s) as [|tag rest]; simpl.
  - rewrite fold_left_app.
    f_equal. apply fold_left_appends, text_block_appends.
  - destruct (join ", " (tag :: rest)) as [e|joined]; simpl; [reflexivity|].
    rewrite fold_left_app.
    f_equal. apply fold_left_appends, text_block_appends.
Qed.

Lemma fold_left_cons_appends (A : Type) (step : string -> A -> string) :
  (forall acc x, step acc x = acc ++ step "" x) ->
  forall x xs, fold_left step (x :: xs) "" = step "" x ++ fold_left step xs "".
Proof.
  intros Hstep x xs. simpl fold_left.
  now apply fold_left_appends.
Qed.

(** C4: in markdown every numbered list item is written with the literal
    prefix "1. " and one line feed, wherever it stands among the blocks:
    the document for [pre ++ item :: post] is the document for [pre],
    then "1. " and the item's text and a line feed, then what [post]
    adds.  One item "Buy milk" contributes exactly "1. Buy milk" and a
    line feed, and a second item gets "1." again, not "2.". *)
Theorem C4_markdown_numbered_item_literal_one :
  (forall s pre post block_id text,
     _convert_to_markdown
       {| summary := s;
          content := pre ++ block_of "numbered_list_item" block_id text
                            :: post |}
     = _convert_to_markdown {| summary := s; content := pre |}
       ++ "1. " ++ text ++ LF ++ fold_left markdown_block post "")
  /\ (forall block_id,
        markdown_block "" (block_of "numbered_list_item" block_id "Buy milk")
        = "1. Buy milk" ++ LF)
  /\ (forall id1 id2 text1 text2,
        fold_left markdown_block
          [block_of "numbered_list_item" id1 text1;
           block_of "numbered_list_item" id2 text2] ""
        = "1. " ++ text1 ++ LF ++ "1. " ++ text2 ++ LF).
Proof.
  split; [|split].
  - intros s pre post block_id text.
    rewrite markdown_content_app. f_equal.
    rewrite fold_left_cons_appends by apply markdown_block_appends.
    change (markdown_block "" (block_of "numbered_list_item" block_id text))
      with ("1. " ++ text ++ LF).
    now rewrite !append_assoc.
  - reflexivity.
  - intros id1 id2 text1 text2.
    rewrite fold_left_cons_appends by apply markdown_block_appends.
    change (markdown_block "" (block_of "numbered_list_item" id1 text1))
      with ("1. " ++ text1 ++ LF).
    change (fold_left markdown_block
              [block_of "numbered_list_item" id2 text2] "")
      with ("1. " ++ text2 ++ LF).
    now rewrite !append_assoc.
Qed.

(** With string tags the text renderer returns: the title, the tags
    line if there are tags, then what the blocks add. *)
Lemma convert_to_text_string_tags s strs blocks :
  _convert_to_text
    {| summary := with_tags s (map VStr strs); content := blocks |}
  = inr (title s ++ LF ++ LF
         ++ match strs with
            | [] => ""
            | _ => "Tags: " ++ String.concat ", " strs ++ LF ++ LF
            end
         ++ fold_left text_block blocks "").
Proof.
  unfold _convert_to_text. cbn [summary content with_tags tags title].
  destruct strs as [|str strs].
  - cbn [map]. exc_step.
    rewrite (fold_left_appends _ text_block_appends). cbn [append].
    now rewrite !append_assoc.
  - unfold join. rewrite join_items_strs. cbn [map]. exc_step.
    rewrite (fold_left_appends _ text_block_appends).
    now rewrite !append_assoc.
Qed.

(** C9: in text mode a code block is written as its text, unchanged,
    followed by two line feeds, with no fence or marker, wherever it
    stands among the blocks.  With tags that are strings the renderer
    returns the document, and the code block's text and its two line
    feeds stand in it between what the blocks before and after add. *)
Theorem C9_text_code_block_verbatim :
  (forall s pre post block_id text,
     _convert_to_text
       {| summary := s;
          content := pre ++ block_of "code" block_id text :: post |}
     = (document <- _convert_to_text {| summary := s; content := pre |} ;;
        ret (document ++ text ++ LF ++ LF ++ fold_left text_block post "")))
  /\ (forall block_id text,
        text_block "" (block_of "code" block_id text) = text ++ LF ++ LF)
  /\ (forall s strs pre post block_id text,
        _convert_to_text
          {| summary := with_tags s (map VStr strs);
             content := pre ++ block_of "code" block_id text :: post |}
        = inr (title s ++ LF ++ LF
               ++ match strs with
                  | [] => ""
                  | _ => "Tags: " ++ String.concat ", " strs ++ LF ++ LF
                  end
               ++ fold_left text_block pre ""
               ++ text ++ LF ++ LF
               ++ fold_left text_block post "")).
Proof.
  split; [|split].
  - intros s pre post block_id text.
    rewrite text_content_app.
    rewrite fold_left_cons_appends by apply text_block_appends.
    change (text_block "" (block_of "code" block_id text))
      with (text ++ LF ++ LF).
    now rewrite !append_assoc.
  - reflexivity.
  - intros s strs pre post block_id text.
    rewrite convert_to_text_string_tags.
    rewrite fold_left_app.
    rewrite (fold_left_appends _ text_block_appends
               (block_of "code" block_id text :: post)).
    rewrite fold_left_cons_appends by apply text_block_appends.
    change (text_block "" (block_of "code" block_id text))
      with (text ++ LF ++ LF).
    now rewrite !append_assoc.
Qed.

End RendererFacts.

(** ** The client monad *)

Lemma bind_returned (A B : Type) (c : Client A) (f : A -> Client B)
    up log log1 x :
  c up log = (log1, inr x) -> bind c f up log = f x up log1.
Proof. intros H. cbn. now rewrite H. Qed.

Lemma bind_raised (A B : Type) (c : Client A) (f : A -> Client B)
    up log log1 e :
  c up log = (log1, inl e) -> bind c f up log = (log1, inl e).
Proof. intros H. cbn. now rewrite H. Qed.

Lemma bind_inv (A B : Type) (c : Client A) (f : A -> Client B)
    up log log2 y :
  bind c f up log = (log2, inr y) ->
  exists log1 x, c up log = (log1, inr x) /\ f x up log1 = (log2, inr y).
Proof.
  cbn. destruct (c up log) as [log1 [e|x]]; intros H.
  - discriminate H.
  - now exists log1, x.
Qed.

(** A [try] whose handler returns never raises: it hands back what its
    body returns, or what the handler makes of the exception. *)
Lemma catch_returns (A : Type) (c : Client A) (h : exn -> A) up log :
  exists log1,
    (exists x, c up log = (log1, inr x)
               /\ catch c (fun e => ret (h e)) up log = (log1, inr x))
    \/ (exists e, c up log = (log1, inl e)
                  /\ catch c (fun e => ret (h e)) up log = (log1, inr (h e))).
Proof.
  cbn. destruct (c up log) as [log1 [e|x]]; exists log1.
  - right. now exists e.
  - left. now exists x.
Qed.

Lemma send_replied req up log response :
  up req = Replied response -> send req up log = ((log ++ [req])%list, inr response).
Proof. intros H. unfold send. now rewrite H. Qed.

Lemma send_logs req up log :
  exists outcome, send req up log = ((log ++ [req])%list, outcome).
Proof. unfold send. eexists. reflexivity. Qed.

Lemma ret_run (A : Type) (x : A) up log :
  (ret x : Client A) up log = (log, inr x).
Proof. reflexivity. Qed.

Lemma lift_run (A : Type) (c : exc A) up log : lift c up log = (log, c).
Proof. reflexivity. Qed.

Lemma response_json_run response up log :
  response_json response up log
  = (log, match json response with
          | inl msg => inl (JSONDecodeError msg)
          | inr v => inr v
          end).
Proof. unfold response_json. now destruct (json response). Qed.

Lemma raise_for_status_run {P : Platform} response up log :
  raise_for_status response up log
  = (log, if raises_for_status (status_code response)
          then inl (HTTPStatusError (status_code response) (text response))
          else inr tt).
Proof.
  unfold raise_for_status.
  now destruct (raises_for_status (status_code response)).
Qed.

Lemma send_unreachable req up log msg :
  up req = Unreachable msg ->
  send req up log = ((log ++ [req])%list, inl (RequestError msg)).
Proof. intros H. unfold send. now rewrite H. Qed.

Lemma send_unsendable req up log class_name msg :
  up req = Unsendable class_name msg ->
  send req up log = ((log ++ [req])%list, inl (ClientError class_name msg)).
Proof. intros H. unfold send. now rewrite H. Qed.

Lemma response_json_undecodable response up log msg :
  json response = inl msg ->
  response_json response up log = (log, inl (JSONDecodeError msg)).
Proof. intros H. now rewrite response_json_run, H. Qed.

Lemma raise_for_status_passes {P : Platform} response up log :
  raises_for_status (status_code response) = false ->
  raise_for_status response up log = (log, inr tt).
Proof. intros H. now rewrite raise_for_status_run, H. Qed.

Lemma raise_for_status_raises {P : Platform} response up log :
  raises_for_status (status_code response) = true ->
  raise_for_status response up log
  = (log, inl (HTTPStatusError (status_code response) (text response))).
Proof. intros H. now rewrite raise_for_status_run, H. Qed.

Lemma response_json_decoded response up log v :
  json response = inr v -> response_json response up log = (log, inr v).
Proof. intros H. now rewrite response_json_run, H. Qed.

Lemma lift_returned (A : Type) (c : exc A) up log x :
  c = inr x -> lift c up log = (log, inr x).
Proof. now intros ->. Qed.

Lemma catch_returned (A : Type) (c : Client A) (h : exn -> Client A)
    up log log1 x :
  c up log = (log1, inr x) -> catch c h up log = (log1, inr x).
Proof. intros H. cbn. now rewrite H. Qed.

Lemma catch_raised (A : Type) (c : Client A) (h : exn -> A) up log log1 e :
  c up log = (log1, inl e) ->
  catch c (fun e => ret (h e)) up log = (log1, inr (h e)).
Proof. intros H. cbn. now rewrite H. Qed.

Lemma lift_raised (A : Type) (c : exc A) up log e :
  c = inl e -> lift c up log = (log, inl e).
Proof. now intros ->. Qed.

Lemma silent_ret (A : Type) (x : A) : silent (ret x).
Proof. now intros up log. Qed.

Lemma silent_lift (A : Type) (c : exc A) : silent (lift c).
Proof. now intros up log. Qed.

Lemma silent_response_json response : silent (response_json response).
Proof. intros up log. now rewrite response_json_run. Qed.

Lemma silent_raise_for_status {P : Platform} response :
  silent (raise_for_status response).
Proof. intros up log. now rewrite raise_for_status_run. Qed.

Lemma silent_bind (A B : Type) (c : Client A) (f : A -> Client B) :
  silent c -> (forall x, silent (f x)) -> silent (bind c f).
Proof.
  intros Hc Hf up log. cbn.
  specialize (Hc up log).
  destruct (c up log) as [log1 [e|x]]; simpl in Hc; subst log1.
  - reflexivity.
  - apply Hf.
Qed.

Lemma silent_if (A : Type) (b : bool) (c1 c2 : Client A) :
  silent c1 -> silent c2 -> silent (if b then c1 else c2).
Proof. now destruct b. Qed.

Lemma send_then_silent (A : Type) req (f : Response -> Client A) up log :
  (forall response, silent (f response)) ->
  fst (bind (send req) f up log) = (log ++ [req])%list.
Proof.
  intros Hf.
  destruct (send_logs req up log) as [[e|response] Hsend].
  - now erewrite bind_raised by exact Hsend.
  - erewrite bind_returned by exact Hsend. apply Hf.
Qed.

Ltac silence :=
  repeat first
    [ apply silent_ret | apply silent_lift | apply silent_response_json
    | apply silent_raise_for_status
    | apply silent_bind; [|intros ?]
    | apply silent_if ].

(** ** What the shaping code can raise *)

Lemma ru_ret (A : Type) (x : A) : raises_unexpected (ret x : exc A).
Proof. intros e H. discriminate H. Qed.

Lemma ru_bind (A B : Type) (c : exc A) (f : A -> exc B) :
  raises_unexpected c -> (forall x, raises_unexpected (f x)) ->
  raises_unexpected (bind c f).
Proof.
  intros Hc Hf e. destruct c as [e'|x]; exc_step.
  - intros H. injection H as <-. now apply Hc.
  - apply Hf.
Qed.

Lemma ru_get v k default : raises_unexpected (Py.get v k default).
Proof.
  intros e. destruct v; cbn; intros H; try discriminate H;
    now injection H as <-.
Qed.

Lemma ru_iter v : raises_unexpected (iter v).
Proof.
  intros e. destruct v; cbn; intros H; try discriminate H;
    now injection H as <-.
Qed.

Lemma ru_contains s v : raises_unexpected (contains s v).
Proof.
  intros e. destruct v; cbn; intros H; try discriminate H;
    now injection H as <-.
Qed.

Lemma ru_join_items index items : raises_unexpected (join_items index items).
Proof.
  revert index.
  induction items as [|item items IH]; intros index e; [discriminate|].
  destruct item; cbn [join_items];
    try (exc_step; intros H; now injection H as <-).
  apply ru_bind; [apply IH|]. intros ss. apply ru_ret.
Qed.

Lemma ru_join sep items : raises_unexpected (join sep items).
Proof.
  unfold join. apply ru_bind; [apply ru_join_items|].
  intros ss. apply ru_ret.
Qed.

Lemma ru_comprehension (A B : Type) (f : A -> exc B) xs :
  (forall x, raises_unexpected (f x)) ->
  raises_unexpected (comprehension f xs).
Proof.
  intros Hf. induction xs as [|x xs IH]; [apply ru_ret|].
  cbn [comprehension]. apply ru_bind; [apply Hf|]. intros y.
  apply ru_bind; [exact IH|]. intros ys. apply ru_ret.
Qed.

Lemma ru_for_loop (S A : Type) (body : S -> A -> exc S) xs s :
  (forall s x, raises_unexpected (body s x)) ->
  raises_unexpected (for_loop body xs s).
Proof.
  intros Hbody. revert s.
  induction xs as [|x xs IH]; intros s; [apply ru_ret|].
  cbn [for_loop]. apply ru_bind; [apply Hbody|]. exact IH.
Qed.

Ltac ru :=
  repeat first
    [ apply ru_ret | apply ru_get | apply ru_iter | apply ru_contains
    | apply ru_join
    | apply ru_comprehension; intros ?
    | apply ru_bind; [|intros ?]
    | match goal with
      | |- raises_unexpected (if ?b then _ else _) => destruct b
      | |- raises_unexpected (match ?x with _ => _ end) => destruct x
      end ].

Lemma ru_extract_title properties : raises_unexpected (extract_title properties).
Proof. unfold extract_title. ru. Qed.

Lemma ru_extract_tags properties : raises_unexpected (extract_tags properties).
Proof. unfold extract_tags. ru. Qed.

Lemma ru_format_page formatted_results page :
  raises_unexpected (format_page formatted_results page).
Proof.
  unfold format_page.
  ru; first [apply ru_extract_title | apply ru_extract_tags | idtac]; ru.
Qed.

Lemma ru_process_block processed_blocks block :
  raises_unexpected (process_block processed_blocks block).
Proof. unfold process_block. ru. Qed.

Lemma ru_process_blocks blocks format :
  raises_unexpected (_process_blocks blocks format).
Proof.
  unfold _process_blocks. apply ru_bind; [apply ru_iter|]. intros items.
  apply ru_for_loop. intros acc block. apply ru_process_block.
Qed.

Lemma ru_search_shaping result : raises_unexpected (search_shaping result).
Proof.
  unfold search_shaping. apply ru_bind; [apply ru_get|]. intros pages.
  apply ru_bind; [apply ru_iter|]. intros page_list.
  apply ru_for_loop. intros acc page. apply ru_format_page.
Qed.

Lemma ru_convert_to_text {P : Platform} result :
  raises_unexpected (_convert_to_text result).
Proof. unfold _convert_to_text. ru. Qed.

Lemma ru_article_shaping {P : Platform} article_id format page_data
    blocks_data :
  raises_unexpected (article_shaping article_id format page_data blocks_data).
Proof.
  unfold article_shaping.
  apply ru_bind; [apply ru_get|]. intros properties.
  apply ru_bind; [apply ru_extract_title|]. intros title.
  apply ru_bind; [apply ru_extract_tags|]. intros tags.
  apply ru_bind; [apply ru_get|]. intros blocks.
  apply ru_bind; [apply ru_process_blocks|]. intros content.
  apply ru_bind; [apply ru_get|]. intros created_time.
  apply ru_bind; [apply ru_get|]. intros last_edited_time.
  apply ru_bind; [apply ru_get|]. intros url.
  cbv zeta.
  destruct (format =? "markdown"); [apply ru_ret|].
  destruct (format =? "text"); [|apply ru_ret].
  apply ru_bind; [apply ru_convert_to_text|]. intros document. apply ru_ret.
Qed.

(** The article is the only thing the shaping returns. *)
Lemma article_shaping_payload {P : Platform} article_id format page_data
    blocks_data r :
  article_shaping article_id format page_data blocks_data = inr r ->
  (exists result, r = Detail result)
  \/ (exists document, r = Rendered document).
Proof.
  unfold article_shaping. cbv zeta.
  destruct (format =? "markdown"); [|destruct (format =? "text")];
    exc_step;
    repeat match goal with
           | |- match ?c with inl _ => _ | inr _ => _ end = _ -> _ =>
               destruct c; [discriminate|]
           end;
    intros H; injection H as <-;
    solve [left; eexists; reflexivity | right; eexists; reflexivity].
Qed.

Lemma bind_lift (A B : Type) (c : exc A) (f : A -> Client B) up log :
  bind (lift c) f up log
  = match c with
    | inl e => (log, inl e)
    | inr x => f x up log
    end.
Proof. now destruct c. Qed.

(** ** The tools *)

Section ToolFacts.
Context {P : Platform}.
Variable NOTION_API_TOKEN : option string.

Lemma except_clauses_error e :
  exists message, except_clauses e = Error message.
Proof. destruct e; simpl; eexists; reflexivity. Qed.

(** [notion_search] calls the client exactly once. *)
Lemma search_try_log payload limit up log :
  fst (search_try NOTION_API_TOKEN payload limit up log)
  = (log ++ [{| req_method := POST;
                req_url := NOTION_API_URL ++ "/search";
                req_headers := headers NOTION_API_TOKEN;
                req_json := Some payload |}])%list.
Proof.
  unfold search_try, client_post.
  apply send_then_silent. intros response.
  silence.
Qed.

(** What [search_try] returns when it returns. *)
Lemma search_try_inv payload limit up log log1 r :
  search_try NOTION_API_TOKEN payload limit up log = (log1, inr r) ->
  exists response result pages page_list shaped,
    up {| req_method := POST;
          req_url := NOTION_API_URL ++ "/search";
          req_headers := headers NOTION_API_TOKEN;
          req_json := Some payload |} = Replied response
    /\ raises_for_status (status_code response) = false
    /\ json response = inr result
    /\ Py.get result "results" (VList []) = inr pages
    /\ iter pages = inr page_list
    /\ for_loop format_page page_list [] = inr shaped
    /\ r = Summaries
             (if (limit <? Z.of_nat (List.length shaped))%Z
              then slice_to shaped limit else shaped).
Proof.
  unfold search_try, client_post. intros H.
  apply bind_inv in H as (l1 & response & Hsend & H).
  apply bind_inv in H as (l2 & [] & Hstatus & H).
  apply bind_inv in H as (l3 & result & Hjson & H).
  apply bind_inv in H as (l4 & pages & Hpages & H).
  apply bind_inv in H as (l5 & page_list & Hiter & H).
  apply bind_inv in H as (l6 & shaped & Hloop & H).
  exists response, result, pages, page_list, shaped.
  unfold send in Hsend.
  rewrite raise_for_status_run in Hstatus.
  rewrite response_json_run in Hjson.
  rewrite lift_run in Hpages, Hiter, Hloop.
  cbn in H.
  destruct (up _) as [class_name msg|msg|response'];
    try discriminate Hsend.
  destruct (raises_for_status _); [discriminate Hstatus|].
  destruct (json response) as [msg|v]; [discriminate Hjson|].
  repeat split; congruence.
Qed.

Lemma search_try_success payload limit up log
    response result pages page_list shaped :
  up {| req_method := POST;
        req_url := NOTION_API_URL ++ "/search";
        req_headers := headers NOTION_API_TOKEN;
        req_json := Some payload |} = Replied response ->
  raises_for_status (status_code response) = false ->
  json response = inr result ->
  Py.get result "results" (VList []) = inr pages ->
  iter pages = inr page_list ->
  for_loop format_page page_list [] = inr shaped ->
  search_try NOTION_API_TOKEN payload limit up log
  = ((log ++ [{| req_method := POST;
                 req_url := NOTION_API_URL ++ "/search";
                 req_headers := headers NOTION_API_TOKEN;
                 req_json := Some payload |}])%list,
     inr (Summaries
            (if (limit <? Z.of_nat (List.length shaped))%Z
             then slice_to shaped limit else shaped))).
Proof.
  intros Hup Hstatus Hjson Hpages Hiter Hloop.
  unfold search_try, client_post.
  erewrite bind_returned by (apply send_replied; exact Hup).
  erewrite bind_returned by (apply raise_for_status_passes; exact Hstatus).
  erewrite bind_returned by (apply response_json_decoded; exact Hjson).
  erewrite bind_returned by (apply lift_returned; exact Hpages).
  erewrite bind_returned by (apply lift_returned; exact Hiter).
  erewrite bind_returned by (apply lift_returned; exact Hloop).
  reflexivity.
Qed.

(** [notion_search] makes its one call and returns: the shaped pages,
    cut at [limit] when there are more, or an error object. *)
Lemma notion_search_returns up query limit sort_order :
  exists r,
    run (notion_search NOTION_API_TOKEN query limit sort_order) up
    = ([search_request NOTION_API_TOKEN query limit sort_order], inr r)
    /\ ((exists shaped,
           r = Summaries
                 (if (limit <? Z.of_nat (List.length shaped))%Z
                  then slice_to shaped limit else shaped))
        \/ (exists message, r = Error message)).
Proof.
  unfold run, notion_search. cbv zeta.
  pose proof (search_try_log (search_payload query limit sort_order)
                limit up []) as Hlog.
  destruct (catch_returns
              (search_try NOTION_API_TOKEN
                 (search_payload query limit sort_order) limit)
              except_clauses up [])
    as [log1 [(r & Hbody & ->)|(e & Hbody & ->)]];
    rewrite Hbody in Hlog; simpl in Hlog; subst log1.
  - exists r. split; [reflexivity|]. left.
    apply search_try_inv in Hbody
      as (response & result & pages & page_list & shaped & H).
    exists shaped. apply H.
  - exists (except_clauses e). split; [reflexivity|]. right.
    apply except_clauses_error.
Qed.

Lemma trimmed_firstn (A : Type) (l : list A) (limit : Z) :
  (0 <= limit)%Z ->
  (if (limit <? Z.of_nat (List.length l))%Z then slice_to l limit else l)
  = firstn (Z.to_nat limit) l.
Proof.
  intros Hlimit.
  destruct (Z.ltb_spec limit (Z.of_nat (List.length l))) as [Hlt|Hge].
  - unfold slice_to.
    destruct (Z.leb_spec 0 limit); [reflexivity|lia].
  - symmetry. apply firstn_all2. lia.
Qed.

(** The module imports exactly when the token is configured, so the
    tools only ever run with a configured token. *)
Lemma import_module_configured :
  import_module NOTION_API_TOKEN = inr tt
  <-> token_configured NOTION_API_TOKEN = true.
Proof.
  unfold import_module.
  destruct (token_configured NOTION_API_TOKEN); simpl; split;
    intros H; try reflexivity; discriminate H.
Qed.

Lemma notion_get_article_configured article_id format :
  token_configured NOTION_API_TOKEN = true ->
  notion_get_article NOTION_API_TOKEN article_id format
  = catch (get_article_try NOTION_API_TOKEN article_id format)
      (fun e => ret (except_clauses e)).
Proof. intros H. unfold notion_get_article. now rewrite H. Qed.

(** What [get_article_try] returns when it returns. *)
Lemma get_article_try_inv article_id format up log log1 r :
  get_article_try NOTION_API_TOKEN article_id format up log = (log1, inr r) ->
  exists blocks content summary,
    _process_blocks blocks format = inr content
    /\ let result := {| summary := summary; content := content |} in
       (format = "markdown" /\ r = Rendered (_convert_to_markdown result))
       \/ (format <> "markdown" /\ format = "text"
           /\ exists document, _convert_to_text result = inr document
                               /\ r = Rendered document)
       \/ (format <> "markdown" /\ format <> "text" /\ r = Detail result).
Proof.
  unfold get_article_try. intros H.
  apply bind_inv in H as (l1 & page_response & _ & H).
  apply bind_inv in H as (l2 & [] & _ & H).
  apply bind_inv in H as (l3 & page_data & _ & H).
  apply bind_inv in H as (l4 & blocks_response & _ & H).
  apply bind_inv in H as (l5 & [] & _ & H).
  apply bind_inv in H as (l6 & blocks_data & _ & H).
  apply bind_inv in H as (l7 & properties & _ & H).
  apply bind_inv in H as (l8 & title & _ & H).
  apply bind_inv in H as (l9 & tags & _ & H).
  apply bind_inv in H as (l10 & blocks & _ & H).
  apply bind_inv in H as (l11 & content & Hcontent & H).
  apply bind_inv in H as (l12 & created_time & _ & H).
  apply bind_inv in H as (l13 & last_edited_time & _ & H).
  apply bind_inv in H as (l14 & url & _ & H).
  rewrite lift_run in Hcontent.
  exists blocks, content,
    {| id := VStr article_id; title := title; created_time := created_time;
       last_edited_time := last_edited_time; tags := tags; url := url |}.
  split; [congruence|]. cbv zeta in *.
  destruct (format =? "markdown") eqn:Hmd.
  - apply String.eqb_eq in Hmd.
    left. split; [exact Hmd|]. rewrite ret_run in H. congruence.
  - apply String.eqb_neq in Hmd. right.
    destruct (format =? "text") eqn:Htext.
    + apply String.eqb_eq in Htext.
      left. split; [exact Hmd|]. split; [exact Htext|].
      apply bind_inv in H as (l15 & document & Hdoc & H).
      rewrite lift_run in Hdoc. rewrite ret_run in H.
      exists document. split; congruence.
    + apply String.eqb_neq in Htext.
      right. split; [exact Hmd|]. split; [exact Htext|].
      rewrite ret_run in H. congruence.
Qed.

(** The article assembled from the two decoded responses. *)
Lemma get_article_try_success article_id format up log
    page_response page_fields blocks_response blocks_data
    properties title tags blocks content :
  up (page_request NOTION_API_TOKEN article_id) = Replied page_response ->
  raises_for_status (status_code page_response) = false ->
  json page_response = inr (VDict page_fields) ->
  up (blocks_request NOTION_API_TOKEN article_id) = Replied blocks_response ->
  raises_for_status (status_code blocks_response) = false ->
  json blocks_response = inr blocks_data ->
  dict_get_or page_fields "properties" (VDict []) = properties ->
  extract_title properties = inr title ->
  extract_tags properties = inr tags ->
  Py.get blocks_data "results" (VList []) = inr blocks ->
  _process_blocks blocks format = inr content ->
  let result :=
    {| summary :=
         {| id := VStr article_id; title := title;
            created_time := dict_get_or page_fields "created_time" VNone;
            last_edited_time :=
              dict_get_or page_fields "last_edited_time" VNone;
            tags := tags;
            url := dict_get_or page_fields "url" VNone |};
       content := content |} in
  get_article_try NOTION_API_TOKEN article_id format up log
  = ((log ++ [page_request NOTION_API_TOKEN article_id]
          ++ [blocks_request NOTION_API_TOKEN article_id])%list,
     if format =? "markdown" then inr (Rendered (_convert_to_markdown result))
     else if format =? "text"
     then match _convert_to_text result with
          | inl e => inl e
          | inr document => inr (Rendered document)
          end
     else inr (Detail result)).
Proof.
  intros Hpage Hpage_status Hpage_json Hblocks Hblocks_status Hblocks_json
    Hproperties Htitle Htags Hresults Hcontent result.
  unfold get_article_try, client_get.
  erewrite bind_returned by (apply send_replied; exact Hpage).
  erewrite bind_returned
    by (apply raise_for_status_passes; exact Hpage_status).
  erewrite bind_returned by (apply response_json_decoded; exact Hpage_json).
  erewrite bind_returned by (apply send_replied; exact Hblocks).
  erewrite bind_returned
    by (apply raise_for_status_passes; exact Hblocks_status).
  erewrite bind_returned
    by (apply response_json_decoded; exact Hblocks_json).
  erewrite bind_returned
    by (apply lift_returned; simpl; rewrite Hproperties; reflexivity).
  erewrite bind_returned by (apply lift_returned; exact Htitle).
  erewrite bind_returned by (apply lift_returned; exact Htags).
  erewrite bind_returned by (apply lift_returned; exact Hresults).
  erewrite bind_returned by (apply lift_returned; exact Hcontent).
  erewrite bind_returned by (apply lift_returned; reflexivity).
  erewrite bind_returned by (apply lift_returned; reflexivity).
  erewrite bind_returned by (apply lift_returned; reflexivity).
  cbv zeta. fold result.
  rewrite <- app_assoc.
  destruct (format =? "markdown"); [reflexivity|].
  destruct (format =? "text"); [|reflexivity].
  destruct (_convert_to_text result) as [e|document] eqn:Hdoc.
  - erewrite bind_raised by (apply lift_raised; reflexivity).
    reflexivity.
  - erewrite bind_returned by (apply lift_returned; reflexivity).
    reflexivity.
Qed.

(** [notion_get_article] returns whatever the upstream does: the
    article, a rendered document or an error object. *)
Lemma notion_get_article_returns up article_id format :
  exists log r,
    run (notion_get_article NOTION_API_TOKEN article_id format) up
    = (log, inr r)
    /\ ((exists result, r = Detail result
                        /\ format <> "markdown" /\ format <> "text")
        \/ (exists document, r = Rendered document
                             /\ (format = "markdown" \/ format = "text"))
        \/ (exists message, r = Error message)).
Proof.
  unfold run.
  destruct (token_configured NOTION_API_TOKEN) eqn:Htoken.
  - rewrite (notion_get_article_configured _ _ Htoken).
    destruct (catch_returns
                (get_article_try NOTION_API_TOKEN article_id format)
                except_clauses up [])
      as [log1 [(r & Hbody & ->)|(e & Hbody & ->)]].
    + exists log1, r. split; [reflexivity|].
      apply get_article_try_inv in Hbody
        as (blocks & content & s & _ & Hr).
      cbv zeta in Hr.
      destruct Hr as [(Hmd & ->)|[(Hmd & Htext & document & _ & ->)
                                 |(Hmd & Htext & ->)]].
      * right. left. eexists. split; [reflexivity|now left].
      * right. left. eexists. split; [reflexivity|now right].
      * left. eexists. repeat split; assumption.
    + exists log1, (except_clauses e). split; [reflexivity|].
      right. right. apply except_clauses_error.
  - unfold notion_get_article. rewrite Htoken.
    exists [], (Error "Notion API credentials not configured").
    split; [reflexivity|].
    right. right. eexists. reflexivity.
Qed.

(** C1: for a limit between 1 and 100 the search makes one request whose
    [page_size] is [min(limit, 100)], and what it returns is an error
    object or a list of at most [limit] entries; when the upstream's
    pages shape into [shaped], however many they are, the list is the
    first [limit] of them. *)
Theorem C1_search_page_size_and_truncation up query limit sort_order :
  (1 <= limit <= 100)%Z ->
  Py.get (search_payload query limit sort_order) "page_size" VNone
  = inr (VInt (Z.min limit 100))
  /\ exists r,
       run (notion_search NOTION_API_TOKEN query limit sort_order) up
       = ([search_request NOTION_API_TOKEN query limit sort_order], inr r)
       /\ match r with
          | Summaries formatted_results =>
              (Z.of_nat (List.length formatted_results) <= limit)%Z
          | Error _ => True
          | Detail _ | Rendered _ => False
          end
       /\ forall response result pages page_list shaped,
            up (search_request NOTION_API_TOKEN query limit sort_order)
            = Replied response ->
            raises_for_status (status_code response) = false ->
            json response = inr result ->
            Py.get result "results" (VList []) = inr pages ->
            iter pages = inr page_list ->
            for_loop format_page page_list [] = inr shaped ->
            r = Summaries (firstn (Z.to_nat limit) shaped).
Proof.
  intros Hlimit. split; [reflexivity|].
  destruct (notion_search_returns up query limit sort_order)
    as (r & Hrun & Hr).
  exists r. split; [exact Hrun|]. split.
  - destruct Hr as [(shaped & ->)|(message & ->)]; [|exact I].
    rewrite trimmed_firstn by lia.
    pose proof (firstn_le_length (Z.to_nat limit) shaped). lia.
  - intros response result pages page_list shaped
      Hup Hstatus Hjson Hpages Hiter Hloop.
    unfold run, notion_search in Hrun. cbv zeta in Hrun.
    erewrite catch_returned in Hrun
      by (eapply search_try_success; eassumption).
    rewrite trimmed_firstn in Hrun by lia.
    congruence.
Qed.

(** C7: the sort of the search payload has the timestamp
    "last_edited_time" and a direction that is "ascending" exactly when
    [sort_order] is "asc" and "descending" for every other string; this
    payload is the body of the request handed to the client. *)
Theorem C7_sort_direction up query limit sort_order :
  exists direction,
    Py.get (search_payload query limit sort_order) "sort" VNone
    = inr (VDict [("timestamp", VStr "last_edited_time");
                  ("direction", VStr direction)])
    /\ (direction = "ascending" <-> sort_order = "asc")
    /\ (direction = "descending" <-> sort_order <> "asc")
    /\ exists outcome,
         run (notion_search NOTION_API_TOKEN query limit sort_order) up
         = ([{| req_method := POST;
                req_url := NOTION_API_URL ++ "/search";
                req_headers := headers NOTION_API_TOKEN;
                req_json := Some (search_payload query limit sort_order) |}],
            outcome).
Proof.
  exists (if sort_order =? "asc" then "ascending" else "descending").
  split; [reflexivity|].
  assert (Hsent : exists outcome,
             run (notion_search NOTION_API_TOKEN query limit sort_order) up
             = ([search_request NOTION_API_TOKEN query limit sort_order],
                outcome)).
  { destruct (notion_search_returns up query limit sort_order)
      as (r & Hrun & _).
    eexists. exact Hrun. }
  destruct (String.eqb_spec sort_order "asc") as [Hasc|Hasc].
  - split; [|split; [|exact Hsent]].
    + split; intros _; [exact Hasc|reflexivity].
    + split; [discriminate|]. intros H. contradiction.
  - split; [|split; [|exact Hsent]].
    + split; [discriminate|]. intros H. contradiction.
    + split; intros _; [exact Hasc|reflexivity].
Qed.

(** C2: when the page GET answers with a status that does not raise and
    a body that decodes, and the blocks GET answers with a status that
    raises, the tool returns the error object whose message is
    "HTTP error: <status> - <body>" of the blocks response, for every
    article id and format; the result is not an article. *)
Theorem C2_blocks_failure_is_one_error up article_id format
    page_response page_data blocks_response :
  token_configured NOTION_API_TOKEN = true ->
  up (page_request NOTION_API_TOKEN article_id) = Replied page_response ->
  raises_for_status (status_code page_response) = false ->
  json page_response = inr page_data ->
  up (blocks_request NOTION_API_TOKEN article_id) = Replied blocks_response ->
  raises_for_status (status_code blocks_response) = true ->
  let message :=
    "HTTP error: " ++ str_int (status_code blocks_response) ++ " - "
    ++ text blocks_response in
  run (notion_get_article NOTION_API_TOKEN article_id format) up
  = ([page_request NOTION_API_TOKEN article_id;
      blocks_request NOTION_API_TOKEN article_id],
     inr (Error message))
  /\ returned_object (Error message) = VDict [("error", VStr message)].
Proof.
  intros Htoken Hpage Hpage_status Hpage_json Hblocks Hblocks_status message.
  split; [|reflexivity].
  unfold run.
  rewrite (notion_get_article_configured _ _ Htoken).
  assert (Hbody :
            get_article_try NOTION_API_TOKEN article_id format up []
            = ([page_request NOTION_API_TOKEN article_id;
                blocks_request NOTION_API_TOKEN article_id],
               inl (HTTPStatusError (status_code blocks_response)
                      (text blocks_response)))).
  { unfold get_article_try, client_get.
    erewrite bind_returned by (apply send_replied; exact Hpage).
    erewrite bind_returned
      by (apply raise_for_status_passes; exact Hpage_status).
    erewrite bind_returned
      by (apply response_json_decoded; exact Hpage_json).
    erewrite bind_returned by (apply send_replied; exact Hblocks).
    erewrite bind_raised
      by (apply raise_for_status_raises; exact Hblocks_status).
    reflexivity. }
  erewrite catch_raised by exact Hbody.
  reflexivity.
Qed.

Lemma except_clauses_unexpected e :
  unexpected e = true ->
  except_clauses e = Error ("Unexpected error: " ++ str_exn e).
Proof. destruct e; try discriminate; reflexivity. Qed.

(** After a response that passes and decodes, the search is its
    shaping. *)
Lemma search_try_decoded payload limit up log response result :
  up {| req_method := POST;
        req_url := NOTION_API_URL ++ "/search";
        req_headers := headers NOTION_API_TOKEN;
        req_json := Some payload |} = Replied response ->
  raises_for_status (status_code response) = false ->
  json response = inr result ->
  search_try NOTION_API_TOKEN payload limit up log
  = ((log ++ [{| req_method := POST;
                 req_url := NOTION_API_URL ++ "/search";
                 req_headers := headers NOTION_API_TOKEN;
                 req_json := Some payload |}])%list,
     match search_shaping result with
     | inl e => inl e
     | inr shaped => inr (Summaries (trimmed limit shaped))
     end).
Proof.
  intros Hup Hstatus Hjson.
  unfold search_try, client_post, search_shaping.
  erewrite bind_returned by (apply send_replied; exact Hup).
  erewrite bind_returned by (apply raise_for_status_passes; exact Hstatus).
  erewrite bind_returned by (apply response_json_decoded; exact Hjson).
  rewrite bind_lift.
  destruct (Py.get result "results" (VList [])) as [e|pages]; exc_step;
    [reflexivity|].
  rewrite bind_lift.
  destruct (iter pages) as [e|page_list]; exc_step; [reflexivity|].
  rewrite bind_lift.
  now destruct (for_loop format_page page_list []).
Qed.

(** After two responses that pass and decode, the article is its
    shaping. *)
Lemma get_article_try_decoded article_id format up log
    page_response page_data blocks_response blocks_data :
  up (page_request NOTION_API_TOKEN article_id) = Replied page_response ->
  raises_for_status (status_code page_response) = false ->
  json page_response = inr page_data ->
  up (blocks_request NOTION_API_TOKEN article_id) = Replied blocks_response ->
  raises_for_status (status_code blocks_response) = false ->
  json blocks_response = inr blocks_data ->
  get_article_try NOTION_API_TOKEN article_id format up log
  = ((log ++ [page_request NOTION_API_TOKEN article_id]
          ++ [blocks_request NOTION_API_TOKEN article_id])%list,
     article_shaping article_id format page_data blocks_data).
Proof.
  intros Hpage Hpage_status Hpage_json Hblocks Hblocks_status Hblocks_json.
  unfold get_article_try, client_get, article_shaping.
  erewrite bind_returned by (apply send_replied; exact Hpage).
  erewrite bind_returned
    by (apply raise_for_status_passes; exact Hpage_status).
  erewrite bind_returned by (apply response_json_decoded; exact Hpage_json).
  erewrite bind_returned by (apply send_replied; exact Hblocks).
  erewrite bind_returned
    by (apply raise_for_status_passes; exact Hblocks_status).
  erewrite bind_returned
    by (apply response_json_decoded; exact Hblocks_json).
  rewrite <- app_assoc.
  repeat (rewrite bind_lift;
          match goal with
          | |- context [match ?c with inl _ => _ | inr _ => _ end] =>
              destruct c; exc_step; [reflexivity|]
          end).
  cbv zeta.
  destruct (format =? "markdown"); [reflexivity|].
  destruct (format =? "text"); [|reflexivity].
  rewrite bind_lift.
  now destruct (_convert_to_text _).
Qed.

Lemma notion_search_outcome :
  forall up query limit sort_order,
      let req := search_request NOTION_API_TOKEN query limit sort_order in
      let outcome :=
        run (notion_search NOTION_API_TOKEN query limit sort_order) up in
      match up req with
      | Unsendable _ msg =>
          outcome = ([req], inr (Error ("Unexpected error: " ++ msg)))
      | Unreachable msg =>
          outcome = ([req], inr (Error ("Request error: " ++ msg)))
      | Replied response =>
          if raises_for_status (status_code response)
          then outcome
               = ([req],
                  inr (Error ("HTTP error: " ++ str_int (status_code response)
                              ++ " - " ++ text response)))
          else
            match json response with
            | inl msg =>
                outcome = ([req], inr (Error ("Unexpected error: " ++ msg)))
            | inr result =>
                match search_shaping result with
                | inl e =>
                    outcome
                    = ([req], inr (Error ("Unexpected error: " ++ str_exn e)))
                | inr shaped =>
                    outcome = ([req], inr (Summaries (trimmed limit shaped)))
                end
            end
      end.
Proof.
  intros up query limit sort_order req outcome. subst outcome.
  unfold run, notion_search. cbv zeta.
  destruct (up req) as [class_name msg|msg|response] eqn:Hup.
  - erewrite catch_raised; cycle 1.
    { unfold search_try, client_post.
      erewrite bind_raised by (apply send_unsendable; exact Hup).
      reflexivity. }
    reflexivity.
  - erewrite catch_raised; cycle 1.
    { unfold search_try, client_post.
      erewrite bind_raised by (apply send_unreachable; exact Hup).
      reflexivity. }
    reflexivity.
  - destruct (raises_for_status (status_code response)) eqn:Hstatus.
    + erewrite catch_raised; cycle 1.
      { unfold search_try, client_post.
        erewrite bind_returned by (apply send_replied; exact Hup).
        erewrite bind_raised
          by (apply raise_for_status_raises; exact Hstatus).
        reflexivity. }
      reflexivity.
    + destruct (json response) as [msg|result] eqn:Hjson.
      * erewrite catch_raised; cycle 1.
        { unfold search_try, client_post.
          erewrite bind_returned by (apply send_replied; exact Hup).
          erewrite bind_returned
            by (apply raise_for_status_passes; exact Hstatus).
          erewrite bind_raised
            by (apply response_json_undecodable; exact Hjson).
          reflexivity. }
        reflexivity.
      * pose proof (search_try_decoded
                      (search_payload query limit sort_order) limit up []
                      Hup Hstatus Hjson) as Hbody.
        destruct (search_shaping result) as [e|shaped] eqn:Hshaping.
        -- erewrite catch_raised by exact Hbody.
           now erewrite except_clauses_unexpected
             by (eapply ru_search_shaping; exact Hshaping).
        -- now erewrite catch_returned by exact Hbody.
Qed.

Lemma notion_get_article_outcome :
  forall up article_id format,
      let page := page_request NOTION_API_TOKEN article_id in
      let blocks := blocks_request NOTION_API_TOKEN article_id in
      let outcome :=
        run (notion_get_article NOTION_API_TOKEN article_id format) up in
      let http_error response :=
        Error ("HTTP error: " ++ str_int (status_code response) ++ " - "
               ++ text response) in
      if token_configured NOTION_API_TOKEN then
        match up page with
        | Unsendable _ msg =>
            outcome = ([page], inr (Error ("Unexpected error: " ++ msg)))
        | Unreachable msg =>
            outcome = ([page], inr (Error ("Request error: " ++ msg)))
        | Replied response =>
            if raises_for_status (status_code response)
            then outcome = ([page], inr (http_error response))
            else
              match json response with
              | inl msg =>
                  outcome = ([page], inr (Error ("Unexpected error: " ++ msg)))
              | inr page_data =>
                  match up blocks with
                  | Unsendable _ msg =>
                      outcome
                      = ([page; blocks],
                         inr (Error ("Unexpected error: " ++ msg)))
                  | Unreachable msg =>
                      outcome
                      = ([page; blocks],
                         inr (Error ("Request error: " ++ msg)))
                  | Replied response' =>
                      if raises_for_status (status_code response')
                      then outcome
                           = ([page; blocks], inr (http_error response'))
                      else
                        match json response' with
                        | inl msg =>
                            outcome
                            = ([page; blocks],
                               inr (Error ("Unexpected error: " ++ msg)))
                        | inr blocks_data =>
                            match article_shaping article_id format
                                    page_data blocks_data with
                            | inl e =>
                                outcome
                                = ([page; blocks],
                                   inr (Error ("Unexpected error: "
                                               ++ str_exn e)))
                            | inr r =>
                                outcome = ([page; blocks], inr r)
                                /\ ((exists result, r = Detail result)
                                    \/ (exists document,
                                          r = Rendered document))
                            end
                        end
                  end
              end
        end
      else outcome
           = ([], inr (Error "Notion API credentials not configured")).
Proof.
  intros up article_id format page blocks outcome http_error.
  subst outcome http_error. unfold run.
  destruct (token_configured NOTION_API_TOKEN) eqn:Htoken.
  2:{ unfold notion_get_article. now rewrite Htoken. }
  rewrite (notion_get_article_configured _ _ Htoken).
  destruct (up page) as [class_name msg|msg|response] eqn:Hpage.
  { erewrite catch_raised; cycle 1.
    { unfold get_article_try, client_get.
      erewrite bind_raised by (apply send_unsendable; exact Hpage).
      reflexivity. }
    reflexivity. }
  { erewrite catch_raised; cycle 1.
    { unfold get_article_try, client_get.
      erewrite bind_raised by (apply send_unreachable; exact Hpage).
      reflexivity. }
    reflexivity. }
  destruct (raises_for_status (status_code response)) eqn:Hstatus.
  { erewrite catch_raised; cycle 1.
    { unfold get_article_try, client_get.
      erewrite bind_returned by (apply send_replied; exact Hpage).
      erewrite bind_raised by (apply raise_for_status_raises; exact Hstatus).
      reflexivity. }
    reflexivity. }
  destruct (json response) as [msg|page_data] eqn:Hjson.
  { erewrite catch_raised; cycle 1.
    { unfold get_article_try, client_get.
      erewrite bind_returned by (apply send_replied; exact Hpage).
      erewrite bind_returned
        by (apply raise_for_status_passes; exact Hstatus).
      erewrite bind_raised
        by (apply response_json_undecodable; exact Hjson).
      reflexivity. }
    reflexivity. }
  assert (Hanswered :
            forall A (f : pyval -> Client A),
              bind (client_get (NOTION_API_URL ++ "/pages/" ++ article_id)
                      (headers NOTION_API_TOKEN))
                (fun page_response =>
                   bind (raise_for_status page_response)
                     (fun _ => bind (response_json page_response) f))
                up []
              = f page_data up [page]).
  { intros A f. unfold client_get.
    erewrite bind_returned by (apply send_replied; exact Hpage).
    erewrite bind_returned
      by (apply raise_for_status_passes; exact Hstatus).
    erewrite bind_returned by (apply response_json_decoded; exact Hjson).
    reflexivity. }
  destruct (up blocks) as [class_name msg|msg|response'] eqn:Hblocks.
  { erewrite catch_raised; cycle 1.
    { unfold get_article_try. rewrite Hanswered. unfold client_get.
      erewrite bind_raised by (apply send_unsendable; exact Hblocks).
      reflexivity. }
    reflexivity. }
  { erewrite catch_raised; cycle 1.
    { unfold get_article_try. rewrite Hanswered. unfold client_get.
      erewrite bind_raised by (apply send_unreachable; exact Hblocks).
      reflexivity. }
    reflexivity. }
  destruct (raises_for_status (status_code response')) eqn:Hstatus'.
  { erewrite catch_raised; cycle 1.
    { unfold get_article_try. rewrite Hanswered. unfold client_get.
      erewrite bind_returned by (apply send_replied; exact Hblocks).
      erewrite bind_raised
        by (apply raise_for_status_raises; exact Hstatus').
      reflexivity. }
    reflexivity. }
  destruct (json response') as [msg|blocks_data] eqn:Hjson'.
  { erewrite catch_raised; cycle 1.
    { unfold get_article_try. rewrite Hanswered. unfold client_get.
      erewrite bind_returned by (apply send_replied; exact Hblocks).
      erewrite bind_returned
        by (apply raise_for_status_passes; exact Hstatus').
      erewrite bind_raised
        by (apply response_json_undecodable; exact Hjson').
      reflexivity. }
    reflexivity. }
  pose proof (get_article_try_decoded article_id format up []
                Hpage Hstatus Hjson Hblocks Hstatus' Hjson') as Hbody.
  destruct (article_shaping article_id format page_data blocks_data)
    as [e|r] eqn:Hshaping.
  - erewrite catch_raised by exact Hbody.
    now erewrite except_clauses_unexpected
      by (eapply ru_article_shaping; exact Hshaping).
  - split; [now erewrite catch_returned by exact Hbody|].
    eapply article_shaping_payload. exact Hshaping.
Qed.

(** C3: whatever the upstream does, and for every input, each tool
    returns and does not raise: [notion_search] the list of shaped pages
    or an error object, [notion_get_article] the article, a rendered
    document or an error object.  An error object is a dict with the one
    key "error" and a string.  The three [except] clauses turn every
    exception into such an object: an HTTP status error, a transport
    error, and any other.  The last two parts say which it is, case by
    case: each failure (a request the client cannot build, a transport
    failure, a status that raises, a body that does not decode, an
    exception while shaping or rendering) gives the error object with
    its message, and only a run without failure gives the payload. *)
Theorem C3_tools_return_payload_or_error :
  (forall up query limit sort_order,
     exists log r,
       run (notion_search NOTION_API_TOKEN query limit sort_order) up
       = (log, inr r)
       /\ ((exists formatted_results, r = Summaries formatted_results)
           \/ (exists message,
                 r = Error message
                 /\ returned_object r = VDict [("error", VStr message)])))
  /\ (forall up article_id format,
        exists log r,
          run (notion_get_article NOTION_API_TOKEN article_id format) up
          = (log, inr r)
          /\ ((exists result, r = Detail result)
              \/ (exists document, r = Rendered document)
              \/ (exists message,
                    r = Error message
                    /\ returned_object r = VDict [("error", VStr message)])))
  /\ (forall status_code text,
        except_clauses (HTTPStatusError status_code text)
        = Error ("HTTP error: " ++ str_int status_code ++ " - " ++ text))
  /\ (forall msg,
        except_clauses (RequestError msg) = Error ("Request error: " ++ msg))
  /\ (forall e, exists message,
        except_clauses e = Error message
        /\ ((forall status_code text, e <> HTTPStatusError status_code text) ->
            (forall msg, e <> RequestError msg) ->
            message = "Unexpected error: " ++ str_exn e))
  /\ (forall up query limit sort_order,
         let req := search_request NOTION_API_TOKEN query limit sort_order in
         let outcome :=
           run (notion_search NOTION_API_TOKEN query limit sort_order) up in
         match up req with
         | Unsendable _ msg =>
             outcome = ([req], inr (Error ("Unexpected error: " ++ msg)))
         | Unreachable msg =>
             outcome = ([req], inr (Error ("Request error: " ++ msg)))
         | Replied response =>
             if raises_for_status (status_code response)
             then outcome
                  = ([req],
                     inr (Error ("HTTP error: " ++ str_int (status_code response)
                                 ++ " - " ++ text response)))
             else
               match json response with
               | inl msg =>
                   outcome = ([req], inr (Error ("Unexpected error: " ++ msg)))
               | inr result =>
                   match search_shaping result with
                   | inl e =>
                       outcome
                       = ([req], inr (Error ("Unexpected error: " ++ str_exn e)))
                   | inr shaped =>
                       outcome = ([req], inr (Summaries (trimmed limit shaped)))
                   end
               end
         end)
  /\ (forall up article_id format,
         let page := page_request NOTION_API_TOKEN article_id in
         let blocks := blocks_request NOTION_API_TOKEN article_id in
         let outcome :=
           run (notion_get_article NOTION_API_TOKEN article_id format) up in
         let http_error response :=
           Error ("HTTP error: " ++ str_int (status_code response) ++ " - "
                  ++ text response) in
         if token_configured NOTION_API_TOKEN then
           match up page with
           | Unsendable _ msg =>
               outcome = ([page], inr (Error ("Unexpected error: " ++ msg)))
           | Unreachable msg =>
               outcome = ([page], inr (Error ("Request error: " ++ msg)))
           | Replied response =>
               if raises_for_status (status_code response)
               then outcome = ([page], inr (http_error response))
               else
                 match json response with
                 | inl msg =>
                     outcome = ([page], inr (Error ("Unexpected error: " ++ msg)))
                 | inr page_data =>
                     match up blocks with
                     | Unsendable _ msg =>
                         outcome
                         = ([page; blocks],
                            inr (Error ("Unexpected error: " ++ msg)))
                     | Unreachable msg =>
                         outcome
                         = ([page; blocks],
                            inr (Error ("Request error: " ++ msg)))
                     | Replied response' =>
                         if raises_for_status (status_code response')
                         then outcome
                              = ([page; blocks], inr (http_error response'))
                         else
                           match json response' with
                           | inl msg =>
                               outcome
                               = ([page; blocks],
                                  inr (Error ("Unexpected error: " ++ msg)))
                           | inr blocks_data =>
                               match article_shaping article_id format
                                       page_data blocks_data with
                               | inl e =>
                                   outcome
                                   = ([page; blocks],
                                      inr (Error ("Unexpected error: "
                                                  ++ str_exn e)))
                               | inr r =>
                                   outcome = ([page; blocks], inr r)
                                   /\ ((exists result, r = Detail result)
                                       \/ (exists document,
                                             r = Rendered document))
                               end
                           end
                     end
                 end
           end
         else outcome
              = ([], inr (Error "Notion API credentials not configured"))).
Proof.
  split; [|split; [|split; [|split; [|split; [|split]]]]].
  - intros up query limit sort_order.
    destruct (notion_search_returns up query limit sort_order)
      as (r & Hrun & [(shaped & ->)|(message & ->)]).
    + do 2 eexists. split; [exact Hrun|]. left. eexists. reflexivity.
    + do 2 eexists. split; [exact Hrun|]. right.
      exists message. now split.
  - intros up article_id format.
    destruct (notion_get_article_returns up article_id format)
      as (log & r & Hrun
          & [(result & -> & _)|[(document & -> & _)|(message & ->)]]).
    + do 2 eexists. split; [exact Hrun|]. left. eexists. reflexivity.
    + do 2 eexists. split; [exact Hrun|]. right. left. eexists. reflexivity.
    + do 2 eexists. split; [exact Hrun|]. right. right.
      exists message. now split.
  - reflexivity.
  - reflexivity.
  - intros e.
    destruct e; simpl; eexists; (split; [reflexivity|]); intros Hhttp Hreq;
      solve [reflexivity | now elim (Hhttp _ _ eq_refl)
            | now elim (Hreq _ eq_refl)].
  - exact notion_search_outcome.
  - exact notion_get_article_outcome.
Qed.

(** C8: a format that is neither "markdown" nor "text" behaves as "json"
    against every upstream: the same requests and the same result.  The
    result is the article or an error object, never a rendered document
    and never a complaint about the format: when both responses decode
    and shape, it is the article with [content] the shaped blocks. *)
Theorem C8_other_formats_are_json up article_id format :
  format <> "markdown" -> format <> "text" ->
  run (notion_get_article NOTION_API_TOKEN article_id format) up
  = run (notion_get_article NOTION_API_TOKEN article_id "json") up
  /\ (exists log r,
        run (notion_get_article NOTION_API_TOKEN article_id format) up
        = (log, inr r)
        /\ ((exists result, r = Detail result)
            \/ (exists message, r = Error message)))
  /\ forall page_response page_fields blocks_response blocks_data
       title tags blocks content,
       token_configured NOTION_API_TOKEN = true ->
       up (page_request NOTION_API_TOKEN article_id) = Replied page_response ->
       raises_for_status (status_code page_response) = false ->
       json page_response = inr (VDict page_fields) ->
       up (blocks_request NOTION_API_TOKEN article_id)
       = Replied blocks_response ->
       raises_for_status (status_code blocks_response) = false ->
       json blocks_response = inr blocks_data ->
       extract_title (dict_get_or page_fields "properties" (VDict []))
       = inr title ->
       extract_tags (dict_get_or page_fields "properties" (VDict []))
       = inr tags ->
       Py.get blocks_data "results" (VList []) = inr blocks ->
       _process_blocks blocks format = inr content ->
       run (notion_get_article NOTION_API_TOKEN article_id format) up
       = ([page_request NOTION_API_TOKEN article_id;
           blocks_request NOTION_API_TOKEN article_id],
          inr (Detail
                 {| summary :=
                      {| id := VStr article_id; title := title;
                         created_time :=
                           dict_get_or page_fields "created_time" VNone;
                         last_edited_time :=
                           dict_get_or page_fields "last_edited_time" VNone;
                         tags := tags;
                         url := dict_get_or page_fields "url" VNone |};
                    content := content |})).
Proof.
  intros Hmd Htext. split; [|split].
  - unfold run, notion_get_article, get_article_try, _process_blocks.
    apply String.eqb_neq in Hmd, Htext.
    destruct (format =? "markdown"); [discriminate Hmd|].
    destruct (format =? "text"); [discriminate Htext|].
    reflexivity.
  - destruct (notion_get_article_returns up article_id format)
      as (log & r & Hrun
          & [(result & -> & _)|[(document & -> & [H|H])|(message & ->)]]);
      try contradiction.
    + do 2 eexists. split; [exact Hrun|]. left. eexists. reflexivity.
    + do 2 eexists. split; [exact Hrun|]. right. eexists. reflexivity.
  - intros page_response page_fields blocks_response blocks_data
      title tags blocks content Htoken Hpage Hpage_status Hpage_json
      Hblocks Hblocks_status Hblocks_json Htitle Htags Hresults Hcontent.
    unfold run.
    rewrite (notion_get_article_configured _ _ Htoken).
    erewrite catch_returned; [reflexivity|].
    erewrite get_article_try_success; try eassumption; try reflexivity.
    apply String.eqb_neq in Hmd, Htext.
    now rewrite Hmd, Htext.
Qed.

End ToolFacts.

(** ** Shaping *)

Lemma comprehension_runs runs :
  forallb text_run runs = true ->
  comprehension (fun item => Py.get item "plain_text" (VStr "")) runs
  = inr (map VStr (map run_text runs)).
Proof.
  induction runs as [|run runs IH]; simpl; [reflexivity|].
  intros H. apply andb_prop in H as [Hrun Hruns].
  rewrite (IH Hruns).
  destruct run as [| | | | | |fields]; try discriminate Hrun.
  simpl in *.
  now destruct (dict_get_or fields "plain_text" (VStr ""));
    try discriminate Hrun.
Qed.

(** The texts of well-formed runs, joined with the empty separator. *)
Lemma join_runs runs :
  forallb text_run runs = true ->
  (parts <- comprehension
              (fun item => Py.get item "plain_text" (VStr "")) runs ;;
   join "" parts)
  = inr (String.concat "" (map run_text runs)).
Proof.
  intros H. rewrite (comprehension_runs _ H). simpl.
  unfold join. now rewrite join_items_strs.
Qed.

Lemma comprehension_dicts key default items :
  forallb is_dict items = true ->
  exists values,
    comprehension (fun item => Py.get item key default) items = inr values
    /\ List.length values = List.length items
    /\ forall n fields,
         nth_error items n = Some (VDict fields) ->
         nth_error values n = Some (dict_get_or fields key default).
Proof.
  induction items as [|item items IH]; simpl; intros H.
  - exists []. repeat split. intros [|n] fields Hn; discriminate Hn.
  - apply andb_prop in H as [Hitem Hitems].
    destruct (IH Hitems) as (values & -> & Hlen & Hnth).
    destruct item as [| | | | | |fields']; try discriminate Hitem.
    simpl. eexists. split; [reflexivity|]. split; [simpl; congruence|].
    intros [|n] fields Hn; simpl in *.
    + congruence.
    + now apply Hnth.
Qed.

(** A block whose type is not supported leaves the list as it is. *)
Lemma process_block_unsupported processed_blocks block :
  is_dict block = true -> supported block = false ->
  process_block processed_blocks block = inr processed_blocks.
Proof.
  destruct block as [| | | | | |fields]; try discriminate.
  intros _ Hsupported. unfold process_block, supported in *. simpl.
  unfold dict_get_or.
  destruct (dict_get fields "type") as [[| | | |ty| |]|]; try reflexivity.
  simpl in Hsupported. now rewrite Hsupported.
Qed.

(** A block of a supported type with well-formed rich text is appended,
    shaped. *)
Lemma process_block_supported processed_blocks block :
  api_block block = true -> supported block = true ->
  process_block processed_blocks block
  = inr (processed_blocks ++ [shaped_block block])%list.
Proof.
  unfold api_block. intros Hblock Hsupported.
  rewrite Hsupported in Hblock.
  apply andb_prop in Hblock as [Hdict Hrich]. simpl in Hrich.
  destruct block as [| | | | | |fields]; try discriminate Hdict.
  unfold process_block, shaped_block, rich_text_of, supported in *. simpl.
  unfold dict_get_or at 1.
  destruct (dict_get fields "type") as [[| | | |ty| |]|];
    try discriminate Hsupported.
  simpl in Hsupported. rewrite Hsupported.
  destruct (dict_get_or fields ty (VDict [])) as [| | | | | |payload];
    try discriminate Hrich.
  simpl.
  destruct (dict_get_or payload "rich_text" (VList [])) as [| | | | |runs|];
    try discriminate Hrich.
  simpl.
  pose proof (join_runs _ Hrich) as Hjoin. simpl in Hjoin.
  destruct (comprehension _ runs) as [e|parts]; [discriminate Hjoin|].
  simpl in *. now rewrite Hjoin.
Qed.

Lemma for_loop_process_filter blocks processed_blocks :
  forallb is_dict blocks = true ->
  for_loop process_block blocks processed_blocks
  = for_loop process_block (filter supported blocks) processed_blocks.
Proof.
  revert processed_blocks.
  induction blocks as [|block blocks IH]; intros acc H; [reflexivity|].
  simpl in H. apply andb_prop in H as [Hblock Hblocks].
  simpl. destruct (supported block) eqn:Hsupported; simpl.
  - destruct (process_block acc block); [reflexivity|]. now apply IH.
  - rewrite (process_block_unsupported _ _ Hblock Hsupported). simpl.
    now apply IH.
Qed.

Lemma for_loop_process_shaped blocks processed_blocks :
  forallb api_block blocks = true ->
  for_loop process_block blocks processed_blocks
  = inr (processed_blocks ++ map shaped_block (filter supported blocks))%list.
Proof.
  revert processed_blocks.
  induction blocks as [|block blocks IH]; intros acc H; simpl.
  - now rewrite app_nil_r.
  - simpl in H. apply andb_prop in H as [Hblock Hblocks].
    destruct (supported block) eqn:Hsupported.
    + rewrite (process_block_supported _ _ Hblock Hsupported). simpl.
      rewrite (IH _ Hblocks). now rewrite <- app_assoc.
    + unfold api_block in Hblock. apply andb_prop in Hblock as [Hdict _].
      rewrite (process_block_unsupported _ _ Hdict Hsupported). simpl.
      now apply IH.
Qed.

Lemma shaped_block_type block :
  supported block = true ->
  In (block_type (shaped_block block)) supported_block_types.
Proof.
  destruct block as [| | | | | |fields]; try discriminate.
  unfold supported, shaped_block. cbn [block_type].
  destruct (dict_get fields "type") as [[| | | |ty| |]|]; try discriminate.
  intros H. apply existsb_exists in H as (ty' & Hin & Heq).
  apply String.eqb_eq in Heq. now subst ty'.
Qed.

(** C6: for a list of block objects, [_process_blocks] returns, without
    error, the shaped forms of exactly the blocks whose type is one of
    the eight supported kinds, in their original relative order; the
    other blocks are left out. *)
Theorem C6_unsupported_blocks_dropped_in_order blocks format :
  forallb api_block blocks = true ->
  exists shaped,
    _process_blocks (VList blocks) format = inr shaped
    /\ shaped = map shaped_block (filter supported blocks)
    /\ List.length shaped = List.length (filter supported blocks)
    /\ Forall (fun b => In (block_type b) supported_block_types) shaped
    /\ _process_blocks (VList blocks) format
       = for_loop process_block (filter supported blocks) [].
Proof.
  intros Hblocks.
  exists (map shaped_block (filter supported blocks)).
  assert (Hrun : _process_blocks (VList blocks) format
                 = inr (map shaped_block (filter supported blocks))).
  { unfold _process_blocks. simpl.
    now rewrite (for_loop_process_shaped _ [] Hblocks). }
  split; [exact Hrun|]. split; [reflexivity|].
  split; [apply length_map|]. split.
  - apply Forall_forall. intros b Hb.
    apply in_map_iff in Hb as (raw & <- & Hin).
    apply filter_In in Hin as [_ Hsupported].
    now apply shaped_block_type.
  - unfold _process_blocks. simpl.
    apply for_loop_process_filter.
    clear Hrun. induction blocks as [|block blocks IH]; [reflexivity|].
    simpl in *. apply andb_prop in Hblocks as [Hblock Hrest].
    unfold api_block in Hblock. apply andb_prop in Hblock as [-> _].
    now apply IH.
Qed.

Lemma extract_title_of props v :
  dict_get_or props "title" (dict_get_or props "Name" (VDict [])) = v ->
  extract_title (VDict props) = extract_title (VDict [("title", v)]).
Proof.
  intros H. unfold extract_title. simpl Py.get.
  change (dict_get_or [("title", v)] "title"
            (dict_get_or [("title", v)] "Name" (VDict []))) with v.
  simpl. now rewrite H.
Qed.

(** C5: the title is read from the property "title", or from "Name" when
    there is no "title", and is the concatenation, in order, of the
    [plain_text] of the runs under the property's own "title" key; with
    neither property the title is the empty string and nothing is
    raised. *)
Theorem C5_title_extraction props :
  (dict_get props "title" = None -> dict_get props "Name" = None ->
   extract_title (VDict props) = inr "")
  /\ (forall v,
        dict_get props "title" = Some v ->
        extract_title (VDict props) = extract_title (VDict [("title", v)]))
  /\ (forall v,
        dict_get props "title" = None -> dict_get props "Name" = Some v ->
        extract_title (VDict props) = extract_title (VDict [("title", v)]))
  /\ (forall fields runs,
        dict_get fields "title" = Some (VList runs) ->
        forallb text_run runs = true ->
        extract_title (VDict [("title", VDict fields)])
        = inr (String.concat "" (map run_text runs))).
Proof.
  repeat split.
  - intros Htitle Hname. unfold extract_title. simpl.
    unfold dict_get_or. now rewrite Htitle, Hname.
  - intros v Htitle. apply extract_title_of.
    unfold dict_get_or. now rewrite Htitle.
  - intros v Htitle Hname. apply extract_title_of.
    unfold dict_get_or. now rewrite Htitle, Hname.
  - intros fields runs Htitle Hruns.
    unfold extract_title. simpl Py.get.
    change (dict_get_or [("title", VDict fields)] "title"
              (dict_get_or [("title", VDict fields)] "Name" (VDict [])))
      with (VDict fields).
    simpl. destruct fields as [|field fields]; [discriminate Htitle|].
    simpl truthy. cbv iota. unfold contains.
    rewrite Htitle. simpl.
    unfold dict_get_or. rewrite Htitle. simpl.
    apply (join_runs _ Hruns).
Qed.

(** C10: when one option of the "Tags" multi-select has no "name", the
    extracted tags hold None at that option's place, so the tags are not
    all strings. *)
Theorem C10_tag_without_name_is_none props tags_fields before option after :
  dict_get props "Tags" = Some (VDict tags_fields) ->
  dict_get tags_fields "multi_select"
  = Some (VList (before ++ VDict option :: after)) ->
  forallb is_dict before = true ->
  forallb is_dict after = true ->
  dict_get option "name" = None ->
  exists tags,
    extract_tags (VDict props) = inr tags
    /\ nth_error tags (List.length before) = Some VNone
    /\ In VNone tags.
Proof.
  intros Htags Hselect Hbefore Hafter Hname.
  assert (Hdicts : forallb is_dict (before ++ VDict option :: after) = true).
  { rewrite forallb_app. simpl. now rewrite Hbefore, Hafter. }
  destruct (comprehension_dicts "name" VNone _ Hdicts)
    as (tags & Htags_run & _ & Hnth).
  assert (Hnone : nth_error tags (List.length before) = Some VNone).
  { rewrite (Hnth (List.length before) option).
    - unfold dict_get_or. now rewrite Hname.
    - rewrite nth_error_app2 by reflexivity.
      now rewrite Nat.sub_diag. }
  exists tags. split; [|split; [exact Hnone|]].
  - unfold extract_tags. simpl Py.get.
    unfold dict_get_or at 1. rewrite Htags. simpl.
    destruct tags_fields as [|field tags_fields]; [discriminate Hselect|].
    simpl truthy. cbv iota. unfold contains.
    rewrite Hselect. simpl.
    unfold dict_get_or. rewrite Hselect. simpl.
    exact Htags_run.
  - eapply nth_error_In. exact Hnone.
Qed.

(** ** The tools on the fixtures *)

(** The end-to-end scenario of the specification: five pages upstream, a
    limit of two, the first two come back. *)
Example search_first_two :
  run (notion_search (P:=cpython) (Some "secret") "roadmap" 2 "asc")
    search_upstream
  = ([search_request (Some "secret") "roadmap" 2 "asc"],
     inr (Summaries
            (map (fun page_id =>
                    {| id := VStr page_id; title := "Roadmap";
                       created_time := VStr "2024-01-01T00:00:00.000Z";
                       last_edited_time := VStr "2024-02-01T00:00:00.000Z";
                       tags := [VStr "plan"; VNone];
                       url := VStr ("https://www.notion.so/" ++ page_id) |})
                 ["p1"; "p2"]))).
Proof. reflexivity. Qed.

Example heading_in_text_mode :
  text_block (P:=cpython) "" (block_of "heading_1" VNone "intro")
  = "INTRO" ++ LF ++ LF.
Proof. reflexivity. Qed.

(** A None among the tags is formatted by the markdown renderer and
    refused by the join of the text renderer. *)
Example none_tag_in_both_renderers :
  snd (run (notion_get_article (P:=cpython) (Some "secret") "abc" "markdown")
         article_upstream)
  = inr (Rendered
           ("# Roadmap" ++ LF ++ LF ++ "Tags: `plan`, `None`" ++ LF ++ LF
            ++ "Shopping" ++ LF ++ LF ++ "1. Buy milk" ++ LF
            ++ "```" ++ LF ++ "x = 1" ++ LF ++ "```" ++ LF ++ LF))
  /\ snd (run (notion_get_article (P:=cpython) (Some "secret") "abc" "text")
            article_upstream)
     = inr (Error
              "Unexpected error: sequence item 1: expected str instance, NoneType found").
Proof. split; reflexivity. Qed.

Lemma C1_witness :
  exists r,
    run (notion_search (P:=cpython) (Some "secret") "roadmap" 2 "asc")
      search_upstream
    = ([search_request (Some "secret") "roadmap" 2 "asc"], inr r)
    /\ exists shaped,
         List.length shaped = 5%nat /\ r = Summaries (firstn 2 shaped).
Proof.
  destruct (@C1_search_page_size_and_truncation cpython (Some "secret")
              search_upstream "roadmap" 2%Z "asc")
    as (_ & r & Hrun & _ & Hsuccess); [lia|].
  exists r. split; [exact Hrun|].
  eexists. split; [|eapply Hsuccess; reflexivity].
  reflexivity.
Defined.

Lemma C2_witness :
  run (notion_get_article (P:=cpython) (Some "secret") "abc" "markdown")
    blocks_missing_upstream
  = ([page_request (Some "secret") "abc";
      blocks_request (Some "secret") "abc"],
     inr (Error "HTTP error: 404 - Not Found")).
Proof.
  exact (proj1 (@C2_blocks_failure_is_one_error cpython (Some "secret")
                  blocks_missing_upstream "abc" "markdown"
                  {| status_code := 200; text := "{}";
                     json := inr (fixture_page "abc") |}
                  (fixture_page "abc")
                  {| status_code := 404; text := "Not Found";
                     json := inl "Expecting value" |}
                  eq_refl eq_refl eq_refl eq_refl eq_refl eq_refl)).
Defined.

Lemma C5_witness :
  extract_title (VDict fixture_properties) = inr "Roadmap".
Proof.
  destruct (C5_title_extraction fixture_properties)
    as (_ & _ & Hname & _).
  rewrite (Hname _ eq_refl eq_refl).
  destruct (C5_title_extraction [])
    as (_ & _ & _ & Hruns).
  apply (Hruns _ [plain "Road"; plain "map"]); reflexivity.
Defined.

Lemma C6_witness :
  exists shaped,
    _process_blocks (VList five_blocks) "json" = inr shaped
    /\ List.length shaped = 3%nat
    /\ map block_id shaped = [VStr "b1"; VStr "b3"; VStr "b5"].
Proof.
  destruct (@C6_unsupported_blocks_dropped_in_order five_blocks "json"
              eq_refl)
    as (shaped & Hrun & Hshaped & Hlength & _).
  exists shaped. split; [exact Hrun|]. split; [exact Hlength|].
  rewrite Hshaped. reflexivity.
Defined.

Lemma C8_witness :
  run (notion_get_article (P:=cpython) (Some "secret") "abc" "yaml")
    article_upstream
  = run (notion_get_article (P:=cpython) (Some "secret") "abc" "json")
      article_upstream.
Proof.
  apply (@C8_other_formats_are_json cpython (Some "secret")
           article_upstream "abc" "yaml"); discriminate.
Defined.

Lemma C10_witness :
  exists tags,
    extract_tags (VDict fixture_properties) = inr tags
    /\ nth_error tags 1 = Some VNone
    /\ In VNone tags.
Proof.
  apply (@C10_tag_without_name_is_none fixture_properties
           [("type", VStr "multi_select");
            ("multi_select",
             VList [VDict [("name", VStr "plan")];
                    VDict [("color", VStr "red")]])]
           [VDict [("name", VStr "plan")]]
           [("color", VStr "red")]
           []);
    reflexivity.
Defined.

Lemma C3_witness :
  run (notion_search (P:=cpython) (Some "secret") "roadmap" 10 "desc")
    unencodable_header_upstream
  = ([search_request (Some "secret") "roadmap" 10 "desc"],
     inr (Error
            "Unexpected error: 'ascii' codec can't encode character in position 7"))
  /\ run (notion_search (P:=cpython) (Some "secret") "roadmap" 10 "desc")
       bad_result_upstream
     = ([search_request (Some "secret") "roadmap" 10 "desc"],
        inr (Error
               "Unexpected error: 'NoneType' object has no attribute 'get'"))
  /\ run (notion_get_article (P:=cpython) (Some "secret") "abc" "text")
       article_upstream
     = ([page_request (Some "secret") "abc";
         blocks_request (Some "secret") "abc"],
        inr (Error
               "Unexpected error: sequence item 1: expected str instance, NoneType found"))
  /\ run (notion_get_article (P:=cpython) (Some "secret") "abc" "text")
       blocks_missing_upstream
     = ([page_request (Some "secret") "abc";
         blocks_request (Some "secret") "abc"],
        inr (Error "HTTP error: 404 - Not Found")).
Proof.
  destruct (@C3_tools_return_payload_or_error cpython (Some "secret"))
    as (_ & _ & _ & _ & _ & Hsearch & Harticle).
  split; [|split; [|split]].
  - exact (Hsearch unencodable_header_upstream "roadmap" 10%Z "desc").
  - exact (Hsearch bad_result_upstream "roadmap" 10%Z "desc").
  - exact (Harticle article_upstream "abc" "text").
  - exact (Harticle blocks_missing_upstream "abc" "text").
Defined.

Lemma C9_witness :
  _convert_to_text (P:=cpython)
    {| summary := fixture_summary [VStr "plan"];
       content := [block_of "paragraph" VNone "Install:";
                   block_of "code" (VStr "b5") "x = 1";
                   block_of "bulleted_list_item" VNone "done"] |}
  = inr ("Roadmap" ++ LF ++ LF ++ "Tags: plan" ++ LF ++ LF
         ++ "Install:" ++ LF ++ LF
         ++ "x = 1" ++ LF ++ LF
         ++ "* done" ++ LF).
Proof.
  destruct (@C9_text_code_block_verbatim cpython) as (_ & _ & Hreturns).
  exact (Hreturns (fixture_summary []) ["plan"]
           [block_of "paragraph" VNone "Install:"]
           [block_of "bulleted_list_item" VNone "done"]
           (VStr "b5") "x = 1").
Defined.

(** * Further properties *)

(** ** Failures of the upstream *)

Section Failures.
Context {P : Platform}.
Variable NOTION_API_TOKEN : option string.

(** X1: with no token, or an empty one, the module does not import; and
    [notion_get_article], called all the same, makes no request and
    returns the credentials error object. *)
Theorem X1_missing_token_sends_nothing up article_id format :
  token_configured NOTION_API_TOKEN = false ->
  import_module NOTION_API_TOKEN
  = inl (ValueError "Notion API credentials not configured")
  /\ run (notion_get_article NOTION_API_TOKEN article_id format) up
     = ([], inr (Error "Notion API credentials not configured")).
Proof.
  intros Htoken.
  unfold import_module, run, notion_get_article.
  rewrite Htoken. split; reflexivity.
Qed.




End Failures.

(** ** The loop of the search *)

(** The list built so far does not matter to what a page adds. *)
Lemma format_page_acc (formatted_results : list ArticleSummary) page :
  format_page formatted_results page
  = match format_page [] page with
    | inl e => inl e
    | inr added => inr (formatted_results ++ added)%list
    end.
Proof.
  unfold format_page.
  destruct (Py.get page "object" VNone) as [e|object]; exc_step;
    [reflexivity|].
  destruct (negb (eq_str object "page")); exc_step.
  { now rewrite app_nil_r. }
  destruct (Py.get page "id" VNone); exc_step; [reflexivity|].
  destruct (Py.get page "properties" (VDict [])) as [e|properties];
    exc_step; [reflexivity|].
  destruct (extract_title properties); exc_step; [reflexivity|].
  destruct (extract_tags properties); exc_step; [reflexivity|].
  destruct (Py.get page "created_time" VNone); exc_step; [reflexivity|].
  destruct (Py.get page "last_edited_time" VNone); exc_step; [reflexivity|].
  destruct (Py.get page "url" VNone); exc_step; reflexivity.
Qed.

(** What one page adds: nothing when it is not a page object, its
    summary when it is. *)
Lemma format_page_added page added :
  format_page [] page = inr added ->
  (is_page page = false /\ added = [])
  \/ (is_page page = true /\ exists s, added = [s] /\ summarises page s).
Proof.
  unfold format_page, is_page, summarises, copied_fields, page_fields_copied.
  destruct page as [| | | | | |fields]; try discriminate.
  unfold Py.get, field. exc_step.
  destruct (eq_str (dict_get_or fields "object" VNone) "page");
    cbn [negb]; cbv iota.
  - destruct (extract_title _) as [e|title]; exc_step; [discriminate|].
    destruct (extract_tags _) as [e|tags]; exc_step; [discriminate|].
    intros H. injection H as <-.
    right. split; [reflexivity|]. eexists. split; [reflexivity|].
    now repeat split.
  - intros H. injection H as <-. now left.
Qed.

Lemma for_loop_format_page pages formatted_results :
  for_loop format_page pages formatted_results
  = (added <- comprehension (format_page []) pages ;;
     ret (formatted_results ++ List.concat added)%list).
Proof.
  revert formatted_results.
  induction pages as [|page pages IH]; intros acc.
  - simpl. now rewrite app_nil_r.
  - cbn [for_loop comprehension]. rewrite format_page_acc.
    destruct (format_page [] page) as [e|added]; exc_step; [reflexivity|].
    rewrite IH.
    destruct (comprehension (format_page []) pages) as [e|rest]; exc_step;
      [reflexivity|].
    cbn [List.concat]. now rewrite app_assoc.
Qed.

Lemma comprehension_raises (A B : Type) (f : A -> exc B) xs x e :
  In x xs -> f x = inl e -> exists e', comprehension f xs = inl e'.
Proof.
  induction xs as [|y xs IH]; intros Hin Hx; [contradiction|].
  cbn [comprehension].
  destruct (f y) as [e1|b] eqn:Hy; exc_step; [now exists e1|].
  destruct Hin as [->|Hin]; [congruence|].
  destruct (IH Hin Hx) as (e' & ->). exc_step. now exists e'.
Qed.

Lemma comprehension_summaries pages added :
  comprehension (format_page []) pages = inr added ->
  Forall2 summarises (filter is_page pages) (List.concat added).
Proof.
  revert added.
  induction pages as [|page pages IH]; intros added.
  - intros H. injection H as <-. constructor.
  - cbn [comprehension].
    destruct (format_page [] page) as [e|first] eqn:Hpage; exc_step;
      [discriminate|].
    destruct (comprehension (format_page []) pages) as [e|rest]; exc_step;
      [discriminate|].
    intros H. injection H as <-.
    specialize (IH rest eq_refl).
    cbn [filter List.concat].
    destruct (format_page_added _ Hpage)
      as [(-> & ->)|(-> & s & -> & Hs)].
    + exact IH.
    + constructor; assumption.
Qed.

Lemma Forall2_firstn (A B : Type) (R : A -> B -> Prop) n xs ys :
  Forall2 R xs ys -> Forall2 R (firstn n xs) (firstn n ys).
Proof.
  intros H. revert n.
  induction H as [|x y xs ys Hxy H IH]; intros [|n]; simpl;
    constructor; auto.
Qed.

Section SearchFacts.
Context {P : Platform}.
Variable NOTION_API_TOKEN : option string.

Lemma notion_search_returned query limit sort_order up log r :
  search_try NOTION_API_TOKEN (search_payload query limit sort_order) limit
    up [] = (log, inr r) ->
  run (notion_search NOTION_API_TOKEN query limit sort_order) up
  = (log, inr r).
Proof.
  intros H. unfold run, notion_search. cbv zeta.
  now erewrite catch_returned by exact H.
Qed.

Lemma notion_search_raised query limit sort_order up log e :
  search_try NOTION_API_TOKEN (search_payload query limit sort_order) limit
    up [] = (log, inl e) ->
  run (notion_search NOTION_API_TOKEN query limit sort_order) up
  = (log, inr (except_clauses e)).
Proof.
  intros H. unfold run, notion_search. cbv zeta.
  now erewrite catch_raised by exact H.
Qed.

(** When the search returns a list, the statements under [try] returned
    it. *)
Lemma notion_search_summaries query limit sort_order up log l :
  run (notion_search NOTION_API_TOKEN query limit sort_order) up
  = (log, inr (Summaries l)) ->
  search_try NOTION_API_TOKEN (search_payload query limit sort_order) limit
    up [] = (log, inr (Summaries l)).
Proof.
  unfold run, notion_search. cbv zeta. intros H.
  destruct (catch_returns
              (search_try NOTION_API_TOKEN
                 (search_payload query limit sort_order) limit)
              except_clauses up [])
    as [log1 [(r & Hbody & Hcatch)|(e & Hbody & Hcatch)]];
    rewrite Hcatch in H.
  - congruence.
  - destruct (except_clauses_error e) as (message & Hmessage).
    rewrite Hmessage in H. discriminate H.
Qed.

(** X4: every entry the search returns summarises a page object of the
    upstream's results: id, created_time, last_edited_time and url are
    copied, title and tags are extracted from its properties.  The
    entries follow the upstream's order, results that are not page
    objects are skipped, and the list stops at [limit]. *)
Theorem X4_search_entries_summarise_pages
    up query limit sort_order log formatted_results :
  (0 <= limit)%Z ->
  run (notion_search NOTION_API_TOKEN query limit sort_order) up
  = (log, inr (Summaries formatted_results)) ->
  exists response result pages page_list,
    up (search_request NOTION_API_TOKEN query limit sort_order)
    = Replied response
    /\ json response = inr result
    /\ Py.get result "results" (VList []) = inr pages
    /\ iter pages = inr page_list
    /\ Forall2 summarises
         (firstn (Z.to_nat limit) (filter is_page page_list))
         formatted_results.
Proof.
  intros Hlimit Hrun.
  apply notion_search_summaries in Hrun.
  apply search_try_inv in Hrun
    as (response & result & pages & page_list & shaped
        & Hup & _ & Hjson & Hpages & Hiter & Hloop & Hresult).
  exists response, result, pages, page_list.
  repeat (split; [assumption|]).
  rewrite trimmed_firstn in Hresult by exact Hlimit.
  injection Hresult as ->.
  apply Forall2_firstn.
  rewrite for_loop_format_page in Hloop.
  destruct (comprehension (format_page []) page_list) as [e|added] eqn:Hadded;
    [discriminate Hloop|].
  cbn in Hloop. injection Hloop as <-.
  now apply comprehension_summaries.
Qed.

(** X5: one result whose shaping raises makes the whole search an error
    object: no entry is returned, whatever the other results are. *)
Theorem X5_one_bad_result_fails_the_search
    up query limit sort_order response result pages page_list page e :
  up (search_request NOTION_API_TOKEN query limit sort_order)
  = Replied response ->
  raises_for_status (status_code response) = false ->
  json response = inr result ->
  Py.get result "results" (VList []) = inr pages ->
  iter pages = inr page_list ->
  In page page_list ->
  format_page [] page = inl e ->
  exists message,
    run (notion_search NOTION_API_TOKEN query limit sort_order) up
    = ([search_request NOTION_API_TOKEN query limit sort_order],
       inr (Error message)).
Proof.
  intros Hup Hstatus Hjson Hpages Hiter Hin Hpage.
  destruct (comprehension_raises (format_page []) _ _ Hin Hpage)
    as (e' & Hraises).
  assert (Hloop : for_loop format_page page_list [] = inl e').
  { rewrite for_loop_format_page, Hraises. reflexivity. }
  destruct (except_clauses_error e') as (message & Hmessage).
  exists message. rewrite <- Hmessage.
  apply notion_search_raised.
  unfold search_try, client_post.
  erewrite bind_returned by (apply send_replied; exact Hup).
  erewrite bind_returned by (apply raise_for_status_passes; exact Hstatus).
  erewrite bind_returned by (apply response_json_decoded; exact Hjson).
  erewrite bind_returned by (apply lift_returned; exact Hpages).
  erewrite bind_returned by (apply lift_returned; exact Hiter).
  erewrite bind_raised by (apply lift_raised; exact Hloop).
  reflexivity.
Qed.

(** X6: for every limit from 0 up, also above 100: the page size asked
    for is [min(limit, 100)] and the result is the first [limit] shaped
    pages, so nothing is cut when the upstream sends no more than
    [limit], and a limit of 0 gives the empty list. *)
Theorem X6_search_nonnegative_limit
    up query limit sort_order response result pages page_list shaped :
  (0 <= limit)%Z ->
  up (search_request NOTION_API_TOKEN query limit sort_order)
  = Replied response ->
  raises_for_status (status_code response) = false ->
  json response = inr result ->
  Py.get result "results" (VList []) = inr pages ->
  iter pages = inr page_list ->
  for_loop format_page page_list [] = inr shaped ->
  Py.get (search_payload query limit sort_order) "page_size" VNone
  = inr (VInt (Z.min limit 100))
  /\ run (notion_search NOTION_API_TOKEN query limit sort_order) up
     = ([search_request NOTION_API_TOKEN query limit sort_order],
        inr (Summaries (firstn (Z.to_nat limit) shaped)))
  /\ ((Z.of_nat (List.length shaped) <= limit)%Z ->
      firstn (Z.to_nat limit) shaped = shaped)
  /\ (limit = 0%Z -> firstn (Z.to_nat limit) shaped = []).
Proof.
  intros Hlimit Hup Hstatus Hjson Hpages Hiter Hloop.
  split; [reflexivity|]. split; [|split].
  - rewrite <- trimmed_firstn by exact Hlimit.
    apply notion_search_returned.
    eapply search_try_success; eassumption.
  - intros Hlength. apply firstn_all2. lia.
  - intros ->. reflexivity.
Qed.

(** X7: a negative limit is passed as the page size as it is, and the
    slice [formatted_results[:limit]] then drops the last [-limit]
    shaped pages instead of keeping none. *)
Theorem X7_search_negative_limit
    up query limit sort_order response result pages page_list shaped :
  (limit < 0)%Z ->
  up (search_request NOTION_API_TOKEN query limit sort_order)
  = Replied response ->
  raises_for_status (status_code response) = false ->
  json response = inr result ->
  Py.get result "results" (VList []) = inr pages ->
  iter pages = inr page_list ->
  for_loop format_page page_list [] = inr shaped ->
  Py.get (search_payload query limit sort_order) "page_size" VNone
  = inr (VInt limit)
  /\ run (notion_search NOTION_API_TOKEN query limit sort_order) up
     = ([search_request NOTION_API_TOKEN query limit sort_order],
        inr (Summaries
               (firstn (List.length shaped - Z.to_nat (- limit)) shaped))).
Proof.
  intros Hlimit Hup Hstatus Hjson Hpages Hiter Hloop.
  split.
  - unfold search_payload, Py.get, dict_get_or. simpl.
    now rewrite Z.min_l by lia.
  - replace (firstn (List.length shaped - Z.to_nat (- limit)) shaped)
      with (if (limit <? Z.of_nat (List.length shaped))%Z
            then slice_to shaped limit else shaped).
    + apply notion_search_returned.
      eapply search_try_success; eassumption.
    + destruct (Z.ltb_spec limit (Z.of_nat (List.length shaped))); [|lia].
      unfold slice_to.
      destruct (Z.leb_spec 0 limit); [lia|].
      f_equal. lia.
Qed.

(** X8: a response without the key "results" is an empty result, for
    every limit. *)
Theorem X8_search_without_results_key
    up query limit sort_order response fields :
  up (search_request NOTION_API_TOKEN query limit sort_order)
  = Replied response ->
  raises_for_status (status_code response) = false ->
  json response = inr (VDict fields) ->
  dict_get fields "results" = None ->
  run (notion_search NOTION_API_TOKEN query limit sort_order) up
  = ([search_request NOTION_API_TOKEN query limit sort_order],
     inr (Summaries [])).
Proof.
  intros Hup Hstatus Hjson Hresults.
  replace (@nil ArticleSummary)
    with (if (limit <? Z.of_nat (List.length (@nil ArticleSummary)))%Z
          then slice_to (@nil ArticleSummary) limit else []).
  - apply notion_search_returned.
    apply (@search_try_success P NOTION_API_TOKEN
             (search_payload query limit sort_order) limit up []
             response (VDict fields) (VList []) [] []);
      try assumption; try reflexivity.
    unfold Py.get, dict_get_or. now rewrite Hresults.
  - destruct (limit <? _)%Z; [|reflexivity].
    unfold slice_to. destruct (0 <=? limit)%Z; apply firstn_nil.
Qed.

End SearchFacts.

(** ** Titles and tags *)

Lemma comprehension_fields key default items :
  forallb is_dict items = true ->
  comprehension (fun item => Py.get item key default) items
  = inr (map (fun item => field item key default) items).
Proof.
  induction items as [|item items IH]; [reflexivity|].
  cbn [forallb]. intros H. apply andb_prop in H as [Hitem Hitems].
  cbn [comprehension map]. rewrite (IH Hitems).
  now destruct item; try discriminate Hitem.
Qed.

(** X9: without a "Tags" property, with one that is empty or null, or
    with one that has no "multi_select", the tags are the empty list and
    nothing is raised. *)
Theorem X9_tags_absent_is_empty props :
  dict_get props "Tags" = None
  \/ (exists v, dict_get props "Tags" = Some v /\ truthy v = false)
  \/ (exists fields,
        dict_get props "Tags" = Some (VDict fields)
        /\ dict_get fields "multi_select" = None) ->
  extract_tags (VDict props) = inr [].
Proof.
  unfold extract_tags, Py.get, dict_get_or. exc_step.
  intros [Habsent|[(v & Htags & Hfalsy)|(fields & Htags & Hselect)]].
  - now rewrite Habsent.
  - rewrite Htags, Hfalsy. reflexivity.
  - rewrite Htags.
    destruct (truthy (VDict fields)); [|reflexivity].
    unfold contains. now rewrite Hselect.
Qed.

(** X10: the tags are the "name" of each option of the multi-select, in
    the options' order, None standing for an option that has none. *)
Theorem X10_tags_are_option_names props fields options :
  dict_get props "Tags" = Some (VDict fields) ->
  dict_get fields "multi_select" = Some (VList options) ->
  forallb is_dict options = true ->
  extract_tags (VDict props)
  = inr (map (fun option => field option "name" VNone) options).
Proof.
  intros Htags Hselect Hoptions.
  unfold extract_tags, Py.get, dict_get_or. exc_step.
  rewrite Htags.
  destruct fields as [|binding fields]; [discriminate Hselect|].
  cbn [truthy]. unfold contains. rewrite Hselect. exc_step.
  cbn [iter]. exc_step.
  apply (comprehension_fields "name" VNone _ Hoptions).
Qed.

(** X11: a "title" property that is present but empty, null, or without
    its own "title" key gives the empty title: "Name" is not consulted
    once the key "title" exists. *)
Theorem X11_title_key_shadows_name props v :
  dict_get props "title" = Some v ->
  truthy v = false
  \/ (exists fields, v = VDict fields /\ dict_get fields "title" = None) ->
  extract_title (VDict props) = inr "".
Proof.
  intros Htitle Hv.
  unfold extract_title, Py.get. exc_step.
  replace (dict_get_or props "title" (dict_get_or props "Name" (VDict [])))
    with v by (unfold dict_get_or at 1; now rewrite Htitle).
  destruct Hv as [Hfalsy|(fields & -> & Hnested)].
  - now rewrite Hfalsy.
  - destruct (truthy (VDict fields)); [|reflexivity].
    unfold contains. now rewrite Hnested.
Qed.

(** ** Blocks *)

Lemma supported_dict fields :
  supported (VDict fields)
  = match dict_get_or fields "type" VNone with
    | VStr ty => existsb (String.eqb ty) supported_block_types
    | _ => false
    end.
Proof.
  unfold supported, dict_get_or.
  now destruct (dict_get fields "type") as [[| | | |ty| |]|].
Qed.

(** What one raw block does to the list, when it does not raise. *)
Lemma process_block_inv processed_blocks block processed_blocks' :
  process_block processed_blocks block = inr processed_blocks' ->
  (supported block = false /\ processed_blocks' = processed_blocks)
  \/ (supported block = true
      /\ exists text,
           processed_blocks'
           = (processed_blocks
              ++ [block_of (declared_type block) (field block "id" VNone)
                    text])%list).
Proof.
  destruct block as [| | | | | |fields]; try discriminate.
  rewrite supported_dict.
  unfold process_block, declared_type, field, Py.get, block_of.
  exc_step.
  destruct (dict_get_or fields "type" VNone) as [| | | |ty| |];
    try (intros H; injection H as <-; now left).
  destruct (existsb (String.eqb ty) supported_block_types).
  - destruct (dict_get_or fields ty (VDict []));
      exc_step; try discriminate.
    destruct (iter _); exc_step; [discriminate|].
    destruct (comprehension _ _); exc_step; [discriminate|].
    destruct (join "" _) as [e|text]; exc_step; [discriminate|].
    intros H. injection H as <-.
    right. split; [reflexivity|]. now exists text.
  - intros H. injection H as <-. now left.
Qed.

Lemma for_loop_process_inv blocks processed_blocks shaped :
  for_loop process_block blocks processed_blocks = inr shaped ->
  exists added,
    shaped = (processed_blocks ++ added)%list
    /\ map (fun b => (block_id b, block_type b)) added
       = map (fun raw => (field raw "id" VNone, declared_type raw))
           (filter supported blocks).
Proof.
  revert processed_blocks.
  induction blocks as [|block blocks IH]; intros acc.
  - intros H. injection H as <-. exists []. now rewrite app_nil_r.
  - cbn [for_loop].
    destruct (process_block acc block) as [e|acc'] eqn:Hblock; exc_step;
      [discriminate|].
    intros Hrest. destruct (IH _ Hrest) as (added & -> & Hadded).
    cbn [filter].
    destruct (process_block_inv _ _ Hblock)
      as [(-> & ->)|(-> & text & ->)].
    + now exists added.
    + eexists. rewrite <- app_assoc. split; [reflexivity|].
      cbn [app map block_of block_id block_type]. now rewrite Hadded.
Qed.

Lemma declared_type_supported block :
  supported block = true -> In (declared_type block) supported_block_types.
Proof.
  destruct block as [| | | | | |fields]; try discriminate.
  rewrite supported_dict. unfold declared_type, field.
  destruct (dict_get_or fields "type" VNone) as [| | | |ty| |];
    try discriminate.
  intros H. apply existsb_exists in H as (ty' & Hin & Heq).
  apply String.eqb_eq in Heq. now subst ty'.
Qed.

(** X12: whenever [_process_blocks] returns, whatever the blocks hold,
    it returns one shaped block for each block of a supported type, in
    the same order and with that block's id and type; so every type in
    its result is one of the eight and the result is no longer than its
    input. *)
Theorem X12_shaped_blocks_follow_supported_blocks
    blocks format items shaped :
  iter blocks = inr items ->
  _process_blocks blocks format = inr shaped ->
  map (fun b => (block_id b, block_type b)) shaped
  = map (fun raw => (field raw "id" VNone, declared_type raw))
      (filter supported items)
  /\ Forall (fun b => In (block_type b) supported_block_types) shaped
  /\ (List.length shaped <= List.length items)%nat.
Proof.
  intros Hiter. unfold _process_blocks. rewrite Hiter. exc_step.
  intros Hloop.
  destruct (for_loop_process_inv _ _ Hloop) as (added & -> & Hadded).
  cbn [app]. split; [exact Hadded|]. split.
  - apply Forall_forall. intros b Hb.
    apply (in_map (fun b => (block_id b, block_type b))) in Hb.
    rewrite Hadded in Hb.
    apply in_map_iff in Hb as (raw & Heq & Hraw).
    apply filter_In in Hraw as [_ Hsupported].
    injection Heq as _ <-.
    now apply declared_type_supported.
  - rewrite <- (length_map (fun b => (block_id b, block_type b))), Hadded,
      length_map.
    apply filter_length_le.
Qed.

(** X13: a block of a supported type without the key of its type, or
    whose payload has no "rich_text", is kept with the empty text. *)
Theorem X13_missing_nested_fields_give_empty_text
    processed_blocks fields ty :
  dict_get fields "type" = Some (VStr ty) ->
  In ty supported_block_types ->
  dict_get fields ty = None
  \/ (exists payload,
        dict_get fields ty = Some (VDict payload)
        /\ dict_get payload "rich_text" = None) ->
  process_block processed_blocks (VDict fields)
  = inr (processed_blocks
         ++ [block_of ty (dict_get_or fields "id" VNone) ""])%list.
Proof.
  intros Htype Hin Hmissing.
  assert (Hsupported : existsb (String.eqb ty) supported_block_types = true).
  { apply existsb_exists. exists ty. split; [exact Hin|].
    apply String.eqb_refl. }
  assert (Htype' : dict_get_or fields "type" VNone = VStr ty)
    by (unfold dict_get_or; now rewrite Htype).
  unfold process_block, Py.get. exc_step.
  rewrite Htype', Hsupported.
  destruct Hmissing as [Hpayload|(payload & Hpayload & Hrich)].
  - replace (dict_get_or fields ty (VDict [])) with (VDict [])
      by (unfold dict_get_or; now rewrite Hpayload).
    reflexivity.
  - replace (dict_get_or fields ty (VDict [])) with (VDict payload)
      by (unfold dict_get_or; now rewrite Hpayload).
    exc_step.
    replace (dict_get_or payload "rich_text" (VList [])) with (VList [])
      by (unfold dict_get_or; now rewrite Hrich).
    reflexivity.
Qed.

(** ** Rendering *)

Lemma join_items_first_other index strs v rest :
  is_str v = false ->
  join_items index (map VStr strs ++ v :: rest)
  = inl (TypeError_join_item (index + List.length strs) (type_of v)).
Proof.
  intros Hv. revert index.
  induction strs as [|str strs IH]; intros index.
  - cbn [map app List.length]. rewrite Nat.add_0_r.
    now destruct v; try discriminate Hv.
  - cbn [map app List.length join_items]. rewrite IH. exc_step.
    now rewrite Nat.add_succ_r.
Qed.

Lemma fold_left_rendered_part (step : string -> Block -> string) :
  (forall acc b1 b2,
     block_type b1 = block_type b2 -> block_text b1 = block_text b2 ->
     step acc b1 = step acc b2) ->
  forall content1 content2 acc,
    map rendered_part content1 = map rendered_part content2 ->
    fold_left step content1 acc = fold_left step content2 acc.
Proof.
  intros Hstep content1.
  induction content1 as [|b1 content1 IH]; intros [|b2 content2] acc H;
    try discriminate H; [reflexivity|].
  cbn [map] in H. injection H as Htype Htext Hrest.
  cbn [fold_left]. rewrite (Hstep acc b1 b2 Htype Htext). now apply IH.
Qed.

Section RenderingFacts.
Context {P : Platform}.

Lemma markdown_block_rendered_part acc b1 b2 :
  block_type b1 = block_type b2 -> block_text b1 = block_text b2 ->
  markdown_block acc b1 = markdown_block acc b2.
Proof. unfold markdown_block. now intros -> ->. Qed.

Lemma text_block_rendered_part acc b1 b2 :
  block_type b1 = block_type b2 -> block_text b1 = block_text b2 ->
  text_block acc b1 = text_block acc b2.
Proof. unfold text_block. now intros -> ->. Qed.

(** X14: the renderers read only the type and the text of a block: two
    contents that agree on these give the same markdown and the same
    text, so the block ids do not reach a rendered document. *)
Theorem X14_renderers_ignore_block_ids s content1 content2 :
  map rendered_part content1 = map rendered_part content2 ->
  _convert_to_markdown {| summary := s; content := content1 |}
  = _convert_to_markdown {| summary := s; content := content2 |}
  /\ _convert_to_text {| summary := s; content := content1 |}
     = _convert_to_text {| summary := s; content := content2 |}.
Proof.
  intros H. split.
  - unfold _convert_to_markdown. cbn [summary content].
    now apply (fold_left_rendered_part _ markdown_block_rendered_part).
  - unfold _convert_to_text. cbn [summary content].
    destruct (tags s) as [|tag rest]; exc_step.
    + f_equal.
      now apply (fold_left_rendered_part _ text_block_rendered_part).
    + destruct (join ", " (tag :: rest)); exc_step; [reflexivity|].
      f_equal.
      now apply (fold_left_rendered_part _ text_block_rendered_part).
Qed.

(** X15: the text renderer joins the tags as they are, so the first tag
    that is not a string (None for an option without a name) makes it
    raise the TypeError of [str.join] at that tag's index, whatever the
    content is. *)
Theorem X15_text_refuses_a_tag_that_is_not_a_string result strs v rest :
  tags (summary result) = (map VStr strs ++ v :: rest)%list ->
  is_str v = false ->
  _convert_to_text result
  = inl (TypeError_join_item (List.length strs) (type_of v)).
Proof.
  intros Htags Hv.
  unfold _convert_to_text. rewrite Htags.
  assert (Hjoin : join ", " (map VStr strs ++ v :: rest)
                  = inl (TypeError_join_item (List.length strs) (type_of v))).
  { unfold join. now rewrite (join_items_first_other 0 strs v rest Hv). }
  rewrite Hjoin.
  destruct (map VStr strs ++ v :: rest)%list eqn:Hlist.
  - now destruct strs.
  - reflexivity.
Qed.

(** X16: when every tag is a string the text renderer returns: the
    title and a blank line, then, if there are tags, "Tags: " with the
    tags separated by ", " and a blank line, then what each block adds,
    in order. *)
Theorem X16_text_layout result strs :
  tags (summary result) = map VStr strs ->
  _convert_to_text result
  = inr (title (summary result) ++ LF ++ LF
         ++ match strs with
            | [] => ""
            | _ => "Tags: " ++ String.concat ", " strs ++ LF ++ LF
            end
         ++ fold_left text_block (content result) "").
Proof.
  intros Htags. unfold _convert_to_text. rewrite Htags.
  destruct strs as [|str strs].
  - cbn [map]. exc_step.
    rewrite (fold_left_appends _ text_block_appends). cbn [append].
    now rewrite !append_assoc.
  - unfold join. rewrite join_items_strs. cbn [map]. exc_step.
    rewrite (fold_left_appends _ text_block_appends).
    now rewrite !append_assoc.
Qed.

End RenderingFacts.

(** ** The article across formats *)

Lemma send_inv req up log log1 response :
  send req up log = (log1, inr response) ->
  up req = Replied response /\ log1 = (log ++ [req])%list.
Proof.
  unfold send.
  destruct (up req) as [class_name msg|msg|response']; intros H;
    try discriminate H.
  injection H as <- <-. now split.
Qed.

Lemma raise_for_status_inv {P : Platform} response up log log1 u :
  raise_for_status response up log = (log1, inr u) ->
  raises_for_status (status_code response) = false /\ log1 = log.
Proof.
  rewrite raise_for_status_run.
  destruct (raises_for_status (status_code response)); intros H.
  - discriminate H.
  - injection H as <-. now split.
Qed.

Lemma response_json_inv response up log log1 v :
  response_json response up log = (log1, inr v) ->
  json response = inr v /\ log1 = log.
Proof.
  rewrite response_json_run.
  destruct (json response) as [msg|v']; intros H.
  - discriminate H.
  - injection H as <- <-. now split.
Qed.

Lemma lift_inv (A : Type) (c : exc A) up log log1 x :
  lift c up log = (log1, inr x) -> c = inr x /\ log1 = log.
Proof. rewrite lift_run. intros H. injection H as <- <-. now split. Qed.

Section ArticleFacts.
Context {P : Platform}.
Variable NOTION_API_TOKEN : option string.

(** Everything that went well when the statements under [try] return. *)
Lemma get_article_try_returned article_id format up log log1 r :
  get_article_try NOTION_API_TOKEN article_id format up log = (log1, inr r) ->
  exists page_response page_fields blocks_response blocks_data
         title tags blocks content,
    up (page_request NOTION_API_TOKEN article_id) = Replied page_response
    /\ raises_for_status (status_code page_response) = false
    /\ json page_response = inr (VDict page_fields)
    /\ up (blocks_request NOTION_API_TOKEN article_id)
       = Replied blocks_response
    /\ raises_for_status (status_code blocks_response) = false
    /\ json blocks_response = inr blocks_data
    /\ extract_title (dict_get_or page_fields "properties" (VDict []))
       = inr title
    /\ extract_tags (dict_get_or page_fields "properties" (VDict []))
       = inr tags
    /\ Py.get blocks_data "results" (VList []) = inr blocks
    /\ _process_blocks blocks format = inr content.
Proof.
  unfold get_article_try, client_get. intros H.
  apply bind_inv in H as (l1 & page_response & Hpage & H).
  apply bind_inv in H as (l2 & [] & Hpage_status & H).
  apply bind_inv in H as (l3 & page_data & Hpage_json & H).
  apply bind_inv in H as (l4 & blocks_response & Hblocks & H).
  apply bind_inv in H as (l5 & [] & Hblocks_status & H).
  apply bind_inv in H as (l6 & blocks_data & Hblocks_json & H).
  apply bind_inv in H as (l7 & properties & Hproperties & H).
  apply bind_inv in H as (l8 & title & Htitle & H).
  apply bind_inv in H as (l9 & tags & Htags & H).
  apply bind_inv in H as (l10 & blocks & Hresults & H).
  apply bind_inv in H as (l11 & content & Hcontent & _).
  apply send_inv in Hpage as [Hpage _], Hblocks as [Hblocks _].
  apply raise_for_status_inv in Hpage_status as [Hpage_status _].
  apply raise_for_status_inv in Hblocks_status as [Hblocks_status _].
  apply response_json_inv in Hpage_json as [Hpage_json _].
  apply response_json_inv in Hblocks_json as [Hblocks_json _].
  apply lift_inv in Hproperties as [Hproperties _], Htitle as [Htitle _],
    Htags as [Htags _], Hresults as [Hresults _], Hcontent as [Hcontent _].
  destruct page_data as [| | | | | |page_fields];
    try discriminate Hproperties.
  cbn in Hproperties. injection Hproperties as <-.
  exists page_response, page_fields, blocks_response, blocks_data,
    title, tags, blocks, content.
  repeat (split; [assumption|]). assumption.
Qed.

(** X17: the three formats are three views of one article.  When
    "json" returns an article, "markdown" returns that article's
    markdown and "text" returns its text (or the error object for what
    the text renderer raised), after the same two requests. *)
Theorem X17_rendered_formats_render_the_json_article
    up article_id log result :
  run (notion_get_article NOTION_API_TOKEN article_id "json") up
  = (log, inr (Detail result)) ->
  run (notion_get_article NOTION_API_TOKEN article_id "markdown") up
  = (log, inr (Rendered (_convert_to_markdown result)))
  /\ run (notion_get_article NOTION_API_TOKEN article_id "text") up
     = (log,
        inr match _convert_to_text result with
            | inr document => Rendered document
            | inl e => except_clauses e
            end).
Proof.
  unfold run.
  destruct (token_configured NOTION_API_TOKEN) eqn:Htoken.
  2:{ unfold notion_get_article. rewrite Htoken. discriminate. }
  rewrite !(notion_get_article_configured _ _ _ Htoken).
  intros Hjson.
  destruct (catch_returns
              (get_article_try NOTION_API_TOKEN article_id "json")
              except_clauses up [])
    as [log1 [(r & Hbody & Hcatch)|(e & Hbody & Hcatch)]];
    rewrite Hcatch in Hjson.
  2:{ destruct (except_clauses_error e) as (message & Hmessage).
      rewrite Hmessage in Hjson. discriminate Hjson. }
  injection Hjson as -> ->.
  destruct (get_article_try_returned _ _ _ _ Hbody)
    as (page_response & page_fields & blocks_response & blocks_data
        & title & tags & blocks & content & Hpage & Hpage_status
        & Hpage_json & Hblocks & Hblocks_status & Hblocks_json
        & Htitle & Htags & Hresults & Hcontent).
  pose proof (fun format Hc =>
                @get_article_try_success P NOTION_API_TOKEN article_id
                  format up [] page_response page_fields blocks_response
                  blocks_data _ title tags blocks content
                  Hpage Hpage_status Hpage_json Hblocks Hblocks_status
                  Hblocks_json eq_refl Htitle Htags Hresults Hc) as Hrun.
  cbv zeta in Hrun.
  pose proof (Hrun "json" Hcontent) as Hsame.
  rewrite Hbody in Hsame. cbn [String.eqb Ascii.eqb Bool.eqb] in Hsame.
  injection Hsame as -> ->.
  split.
  - erewrite catch_returned by (apply (Hrun "markdown"); exact Hcontent).
    reflexivity.
  - pose proof (Hrun "text" Hcontent) as Htext.
    cbn [String.eqb Ascii.eqb Bool.eqb] in Htext.
    destruct (_convert_to_text _) as [e|document].
    + now erewrite catch_raised by exact Htext.
    + now erewrite catch_returned by exact Htext.
Qed.

(** X18: a blocks response without the key "results" gives an article
    with no content, not an error. *)
Theorem X18_article_without_results_key
    up article_id page_response page_fields blocks_response fields
    title tags :
  token_configured NOTION_API_TOKEN = true ->
  up (page_request NOTION_API_TOKEN article_id) = Replied page_response ->
  raises_for_status (status_code page_response) = false ->
  json page_response = inr (VDict page_fields) ->
  up (blocks_request NOTION_API_TOKEN article_id) = Replied blocks_response ->
  raises_for_status (status_code blocks_response) = false ->
  json blocks_response = inr (VDict fields) ->
  dict_get fields "results" = None ->
  extract_title (dict_get_or page_fields "properties" (VDict []))
  = inr title ->
  extract_tags (dict_get_or page_fields "properties" (VDict []))
  = inr tags ->
  run (notion_get_article NOTION_API_TOKEN article_id "json") up
  = ([page_request NOTION_API_TOKEN article_id;
      blocks_request NOTION_API_TOKEN article_id],
     inr (Detail
            {| summary :=
                 {| id := VStr article_id; title := title;
                    created_time :=
                      dict_get_or page_fields "created_time" VNone;
                    last_edited_time :=
                      dict_get_or page_fields "last_edited_time" VNone;
                    tags := tags;
                    url := dict_get_or page_fields "url" VNone |};
               content := [] |})).
Proof.
  intros Htoken Hpage Hpage_status Hpage_json Hblocks Hblocks_status
    Hblocks_json Hresults Htitle Htags.
  unfold run. rewrite (notion_get_article_configured _ _ _ Htoken).
  erewrite catch_returned; [reflexivity|].
  apply (@get_article_try_success P NOTION_API_TOKEN article_id "json" up
           [] page_response page_fields blocks_response (VDict fields)
           (dict_get_or page_fields "properties" (VDict []))
           title tags (VList []) []);
    try assumption; try reflexivity.
  unfold Py.get, dict_get_or. now rewrite Hresults.
Qed.

Lemma for_loop_process_dicts blocks processed_blocks shaped :
  for_loop process_block blocks processed_blocks = inr shaped ->
  forallb is_dict blocks = true.
Proof.
  revert processed_blocks.
  induction blocks as [|block blocks IH]; intros acc; [reflexivity|].
  cbn [for_loop forallb].
  destruct (process_block acc block) as [e|acc'] eqn:Hblock; exc_step;
    [discriminate|].
  intros Hrest. rewrite (IH _ Hrest).
  now destruct block; try discriminate Hblock.
Qed.

(** X19: a value among the blocks that is not an object makes the whole
    article an error object, in every format: no article is assembled
    from the blocks that are well formed. *)
Theorem X19_one_bad_block_fails_the_article
    up article_id format page_response page_data blocks_response
    blocks_data properties title tags blocks items block :
  token_configured NOTION_API_TOKEN = true ->
  up (page_request NOTION_API_TOKEN article_id) = Replied page_response ->
  raises_for_status (status_code page_response) = false ->
  json page_response = inr page_data ->
  up (blocks_request NOTION_API_TOKEN article_id) = Replied blocks_response ->
  raises_for_status (status_code blocks_response) = false ->
  json blocks_response = inr blocks_data ->
  Py.get page_data "properties" (VDict []) = inr properties ->
  extract_title properties = inr title ->
  extract_tags properties = inr tags ->
  Py.get blocks_data "results" (VList []) = inr blocks ->
  iter blocks = inr items ->
  In block items ->
  is_dict block = false ->
  exists message,
    run (notion_get_article NOTION_API_TOKEN article_id format) up
    = ([page_request NOTION_API_TOKEN article_id;
        blocks_request NOTION_API_TOKEN article_id],
       inr (Error message)).
Proof.
  intros Htoken Hpage Hpage_status Hpage_json Hblocks Hblocks_status
    Hblocks_json Hproperties Htitle Htags Hresults Hiter Hin Hblock.
  destruct (_process_blocks blocks format) as [e|content] eqn:Hcontent.
  2:{ unfold _process_blocks in Hcontent. rewrite Hiter in Hcontent.
      cbn in Hcontent. apply for_loop_process_dicts in Hcontent.
      rewrite forallb_forall in Hcontent.
      rewrite (Hcontent _ Hin) in Hblock. discriminate Hblock. }
  destruct (except_clauses_error e) as (message & Hmessage).
  exists message. rewrite <- Hmessage.
  unfold run. rewrite (notion_get_article_configured _ _ _ Htoken).
  erewrite catch_raised; [reflexivity|].
  unfold get_article_try, client_get.
  erewrite bind_returned by (apply send_replied; exact Hpage).
  erewrite bind_returned
    by (apply raise_for_status_passes; exact Hpage_status).
  erewrite bind_returned by (apply response_json_decoded; exact Hpage_json).
  erewrite bind_returned by (apply send_replied; exact Hblocks).
  erewrite bind_returned
    by (apply raise_for_status_passes; exact Hblocks_status).
  erewrite bind_returned
    by (apply response_json_decoded; exact Hblocks_json).
  erewrite bind_returned by (apply lift_returned; exact Hproperties).
  erewrite bind_returned by (apply lift_returned; exact Htitle).
  erewrite bind_returned by (apply lift_returned; exact Htags).
  erewrite bind_returned by (apply lift_returned; exact Hresults).
  erewrite bind_raised by (apply lift_raised; exact Hcontent).
  reflexivity.
Qed.

End ArticleFacts.

(** ** The further properties on the fixtures *)


Lemma X1_witness :
  run (notion_get_article (P:=cpython) None "abc" "json") article_upstream
  = ([], inr (Error "Notion API credentials not configured")).
Proof.
  exact (proj2 (@X1_missing_token_sends_nothing cpython None
                  article_upstream "abc" "json" eq_refl)).
Defined.


Lemma X4_witness :
  exists page_list formatted_results,
    Forall2 summarises (firstn 2 (filter is_page page_list))
      formatted_results
    /\ List.length formatted_results = 2%nat.
Proof.
  edestruct (@X4_search_entries_summarise_pages cpython (Some "secret")
               search_upstream "roadmap" 2%Z "asc")
    as (response & result & pages & page_list & _ & _ & _ & _ & H);
    [lia|reflexivity|].
  do 2 eexists. split; [exact H|reflexivity].
Defined.

Lemma X5_witness :
  exists message,
    run (notion_search (P:=cpython) (Some "secret") "roadmap" 10 "desc")
      bad_result_upstream
    = ([search_request (Some "secret") "roadmap" 10 "desc"],
       inr (Error message)).
Proof.
  eapply (@X5_one_bad_result_fails_the_search cpython (Some "secret")
            bad_result_upstream "roadmap" 10%Z "desc" _ _ _ _ VNone);
    try reflexivity.
  right. left. reflexivity.
Defined.

Lemma X6_witness :
  exists shaped,
    List.length shaped = 5%nat
    /\ Py.get (search_payload "roadmap" 250 "asc") "page_size" VNone
       = inr (VInt 100)
    /\ run (notion_search (P:=cpython) (Some "secret") "roadmap" 250 "asc")
         search_upstream
       = ([search_request (Some "secret") "roadmap" 250 "asc"],
          inr (Summaries (firstn 250 shaped))).
Proof.
  edestruct (@X6_search_nonnegative_limit cpython (Some "secret")
               search_upstream "roadmap" 250%Z "asc")
    as (Hsize & Hrun & _); [lia|reflexivity..|].
  eexists. split; [|split; [exact Hsize|exact Hrun]].
  reflexivity.
Defined.

Lemma X7_witness :
  exists shaped,
    List.length shaped = 5%nat
    /\ run (notion_search (P:=cpython) (Some "secret") "roadmap" (-1) "asc")
         search_upstream
       = ([search_request (Some "secret") "roadmap" (-1) "asc"],
          inr (Summaries (firstn 4 shaped))).
Proof.
  edestruct (@X7_search_negative_limit cpython (Some "secret")
               search_upstream "roadmap" (-1)%Z "asc")
    as (_ & Hrun); [lia|reflexivity..|].
  eexists. split; [|exact Hrun].
  reflexivity.
Defined.

Lemma X8_witness :
  run (notion_search (P:=cpython) (Some "secret") "roadmap" 10 "desc")
    no_results_upstream
  = ([search_request (Some "secret") "roadmap" 10 "desc"],
     inr (Summaries [])).
Proof.
  eapply (@X8_search_without_results_key cpython (Some "secret")
            no_results_upstream "roadmap" 10%Z "desc");
    reflexivity.
Defined.

Lemma X9_witness :
  extract_tags (VDict [("Name", VDict []); ("Tags", VDict [])]) = inr [].
Proof.
  apply X9_tags_absent_is_empty.
  right. left. exists (VDict []). split; reflexivity.
Defined.

Lemma X10_witness :
  extract_tags (VDict fixture_properties) = inr [VStr "plan"; VNone].
Proof.
  exact (@X10_tags_are_option_names fixture_properties
           [("type", VStr "multi_select");
            ("multi_select",
             VList [VDict [("name", VStr "plan")];
                    VDict [("color", VStr "red")]])]
           [VDict [("name", VStr "plan")]; VDict [("color", VStr "red")]]
           eq_refl eq_refl eq_refl).
Defined.

Lemma X11_witness :
  extract_title (VDict shadowed_properties) = inr ""
  /\ extract_title (VDict fixture_properties) = inr "Roadmap".
Proof.
  split; [|reflexivity].
  apply (@X11_title_key_shadows_name shadowed_properties (VDict []));
    [reflexivity|].
  left. reflexivity.
Defined.

Lemma X12_witness :
  exists shaped,
    _process_blocks (VList five_blocks) "markdown" = inr shaped
    /\ map (fun b => (block_id b, block_type b)) shaped
       = [(VStr "b1", "paragraph"); (VStr "b3", "numbered_list_item");
          (VStr "b5", "code")].
Proof.
  eexists. split; [reflexivity|].
  eapply (@X12_shaped_blocks_follow_supported_blocks (VList five_blocks)
            "markdown" five_blocks);
    reflexivity.
Defined.

Lemma X13_witness :
  process_block [] (VDict [("id", VStr "b9"); ("type", VStr "quote")])
  = inr [block_of "quote" (VStr "b9") ""].
Proof.
  apply (@X13_missing_nested_fields_give_empty_text []
           [("id", VStr "b9"); ("type", VStr "quote")] "quote");
    [reflexivity| |left; reflexivity].
  do 6 right. left. reflexivity.
Defined.

Lemma X14_witness :
  _convert_to_markdown (P:=cpython)
    {| summary := fixture_summary [];
       content := [block_of "quote" (VStr "b1") "Less is more"] |}
  = _convert_to_markdown (P:=cpython)
      {| summary := fixture_summary [];
         content := [block_of "quote" VNone "Less is more"] |}.
Proof.
  apply (@X14_renderers_ignore_block_ids cpython (fixture_summary [])
           [block_of "quote" (VStr "b1") "Less is more"]
           [block_of "quote" VNone "Less is more"]).
  reflexivity.
Defined.

Lemma X15_witness :
  _convert_to_text (P:=cpython)
    {| summary := fixture_summary [VStr "plan"; VNone]; content := [] |}
  = inl (TypeError_join_item 1 TNoneType).
Proof.
  apply (@X15_text_refuses_a_tag_that_is_not_a_string cpython
           {| summary := fixture_summary [VStr "plan"; VNone];
              content := [] |}
           ["plan"] VNone []);
    reflexivity.
Defined.

Lemma X16_witness :
  _convert_to_text (P:=cpython)
    {| summary := fixture_summary [VStr "plan"; VStr "draft"];
       content := [block_of "heading_2" VNone "Goals"] |}
  = inr ("Roadmap" ++ LF ++ LF ++ "Tags: plan, draft" ++ LF ++ LF
         ++ "GOALS" ++ LF ++ LF).
Proof.
  apply (@X16_text_layout cpython
           {| summary := fixture_summary [VStr "plan"; VStr "draft"];
              content := [block_of "heading_2" VNone "Goals"] |}
           ["plan"; "draft"]).
  reflexivity.
Defined.

Lemma X17_witness :
  exists log result,
    run (notion_get_article (P:=cpython) (Some "secret") "abc" "markdown")
      article_upstream
    = (log, inr (Rendered (_convert_to_markdown (P:=cpython) result)))
    /\ List.length (content result) = 3%nat.
Proof.
  edestruct (@X17_rendered_formats_render_the_json_article cpython
               (Some "secret") article_upstream "abc")
    as (Hmarkdown & _); [reflexivity|].
  do 2 eexists. split; [exact Hmarkdown|reflexivity].
Defined.

Lemma X18_witness :
  exists result,
    run (notion_get_article (P:=cpython) (Some "secret") "abc" "json")
      no_results_upstream
    = ([page_request (Some "secret") "abc";
        blocks_request (Some "secret") "abc"],
       inr (Detail result))
    /\ content result = [].
Proof.
  eexists. split.
  - eapply (@X18_article_without_results_key cpython (Some "secret")
              no_results_upstream "abc");
      reflexivity.
  - reflexivity.
Defined.

Lemma X19_witness :
  exists message,
    run (notion_get_article (P:=cpython) (Some "secret") "abc" "json")
      bad_block_upstream
    = ([page_request (Some "secret") "abc";
        blocks_request (Some "secret") "abc"],
       inr (Error message)).
Proof.
  eapply (@X19_one_bad_block_fails_the_article cpython (Some "secret")
            bad_block_upstream "abc" "json" _ _ _ _ _ _ _ _ _ (VStr "b2"));
    try reflexivity.
  right. left. reflexivity.
Defined.
